(** * final_app.py: the schema-resolution pipeline of the data dashboard

    A shallow embedding of [src/final_app.py]: the directory lister
    [list_items], the header scanner [extract_column_names], the callback
    [process_selected_file] that resolves a file into the session dataset
    (globals [uploaded_df] and [timestamp_column]) and the chart callback
    [update_charts].

    Text is modelled as [string]: a sequence of code points below 256.
    Library calls whose code is not part of the repository (requests,
    BeautifulSoup, pandas, plotly) are the fields of an environment record
    [Env]; every general theorem quantifies over it. *)

From Stdlib Require Import ZArith List Ascii String DecimalString Lia Bool.
From Stdlib Require DecimalNat DecimalFacts.
From stdpp Require Import base option list gmap strings sorting.

Local Open Scope string_scope.
Local Open Scope list_scope.

(** ** Python string primitives *)

Module Py.

(** [str.isspace] on one code point below 256: TAB..CR, FS..US, space,
    NEL (0x85) and NBSP (0xA0). *)
Definition isspace (c : ascii) : bool :=
  let n := nat_of_ascii c in
  (((9 <=? n) && (n <=? 13)) || ((28 <=? n) && (n <=? 32))
   || (n =? 133) || (n =? 160))%nat.

(** The line boundaries of [str.splitlines]: LF, VT, FF, CR, FS, GS, RS, NEL. *)
Definition islinebreak (c : ascii) : bool :=
  let n := nat_of_ascii c in
  (((10 <=? n) && (n <=? 13)) || ((28 <=? n) && (n <=? 30)) || (n =? 133))%nat.

Definition is_empty (s : string) : bool :=
  match s with EmptyString => true | String _ _ => false end.

(** [s.lstrip()] *)
Fixpoint lstrip (s : string) : string :=
  match s with
  | EmptyString => EmptyString
  | String c s' => if isspace c then lstrip s' else s
  end.

(** [s.rstrip()] *)
Fixpoint rstrip (s : string) : string :=
  match s with
  | EmptyString => EmptyString
  | String c s' =>
      let r := rstrip s' in
      if isspace c && is_empty r then EmptyString else String c r
  end.

(** [s.strip()] *)
Definition strip (s : string) : string := rstrip (lstrip s).

(** [s.lstrip(chars)] and [s.rstrip(chars)]: [chars] is a SET of
    characters, every leading (trailing) character in the set is removed. *)
Definition in_chars (chars : string) (c : ascii) : bool :=
  existsb (fun d => Ascii.eqb c d) (list_ascii_of_string chars).

Fixpoint lstrip_chars (chars s : string) : string :=
  match s with
  | EmptyString => EmptyString
  | String c s' => if in_chars chars c then lstrip_chars chars s' else s
  end.

Fixpoint rstrip_chars (chars s : string) : string :=
  match s with
  | EmptyString => EmptyString
  | String c s' =>
      let r := rstrip_chars chars s' in
      if in_chars chars c && is_empty r then EmptyString else String c r
  end.

(** [s.startswith(p)] *)
Fixpoint startswith (p s : string) : bool :=
  match p, s with
  | EmptyString, _ => true
  | String a p', String b s' => Ascii.eqb a b && startswith p' s'
  | String _ _, EmptyString => false
  end.

(** [s.startswith((p1, p2, ...))] *)
Definition startswith_any (ps : list string) (s : string) : bool :=
  existsb (fun p => startswith p s) ps.

Definition push (c : ascii) (fields : list string) : list string :=
  match fields with
  | [] => [String c EmptyString]
  | f :: rest => String c f :: rest
  end.

(** [s.split(sep)] for a one-character separator: never the empty list. *)
Fixpoint split (sep : ascii) (s : string) : list string :=
  match s with
  | EmptyString => [EmptyString]
  | String c s' =>
      if Ascii.eqb c sep then EmptyString :: split sep s'
      else push c (split sep s')
  end.

(** [s.split(sep, maxsplit)] for a one-character separator. *)
Fixpoint split_max (sep : ascii) (maxsplit : nat) (s : string) : list string :=
  match maxsplit with
  | O => [s]
  | S m =>
      (fix scan (t : string) : list string :=
         match t with
         | EmptyString => [EmptyString]
         | String c t' =>
             if Ascii.eqb c sep then EmptyString :: split_max sep m t'
             else push c (scan t')
         end) s
  end.

(** [s.split()]: the maximal runs of non-whitespace characters. The scan
    returns the rest of the token in progress and the tokens after it. *)
Definition close_token (cur : string) (toks : list string) : list string :=
  if is_empty cur then toks else cur :: toks.

Fixpoint split_ws_go (s : string) : string * list string :=
  match s with
  | EmptyString => (EmptyString, [])
  | String c s' =>
      let '(cur, toks) := split_ws_go s' in
      if isspace c then (EmptyString, close_token cur toks)
      else (String c cur, toks)
  end.

Definition split_ws (s : string) : list string :=
  let '(cur, toks) := split_ws_go s in close_token cur toks.

(** [s.splitlines()]: [after_cr] remembers that the previous character was a
    carriage return, so that the LF of a CR LF pair ends no second line. *)
Fixpoint splitlines_go (after_cr : bool) (s : string) : list string :=
  match s with
  | EmptyString => []
  | String c s' =>
      if after_cr && Ascii.eqb c "010"%char then splitlines_go false s'
      else if islinebreak c then
        EmptyString :: splitlines_go (Ascii.eqb c "013"%char) s'
      else push c (splitlines_go false s')
  end.

Definition splitlines (s : string) : list string := splitlines_go false s.

(** ["\n".join(lines)] *)
Fixpoint join_nl (lines : list string) : string :=
  match lines with
  | [] => EmptyString
  | [l] => l
  | l :: rest => l +:+ String "010"%char (join_nl rest)
  end.

(** [str(n)] for a non-negative integer. *)
Definition str (n : nat) : string := NilZero.string_of_uint (Nat.to_uint n).

(** Truthiness of an optional string: [None] and the empty string are falsy. *)
Definition truthy (o : option string) : bool :=
  match o with
  | Some s => negb (is_empty s)
  | None => false
  end.

End Py.

(** ** Exceptions *)

(** A raised Python exception, carried with the text [str(e)] that the
    handler of [process_selected_file] formats into its status message. *)
Inductive exn := Raise (msg : string).

Definition exn_msg (e : exn) : string := match e with Raise m => m end.

Inductive result (A : Type) :=
| Ok (a : A)
| Err (e : exn).
Arguments Ok {A} a.
Arguments Err {A} e.

(** ** Tables *)

(** A cell of a DataFrame: a raw token (object dtype), a missing value, a
    parsed timestamp (its offset on the time axis) or the null timestamp. *)
Inductive scalar :=
| Str (s : string)
| NaN
| Stamp (t : Z)
| NaT.

Global Instance scalar_eq_dec : EqDecision scalar.
Proof. solve_decision. Defined.

(** Row-major view of a [pandas.DataFrame]: the column labels and the rows in
    index order. *)
Record DataFrame := mkDataFrame {
  columns : list string;
  rows : list (list scalar);
}.

(** [pd.DataFrame()] *)
Definition empty_frame : DataFrame := mkDataFrame [] [].

(** [df.empty]: some axis has length 0. *)
Definition df_empty (df : DataFrame) : bool :=
  match columns df, rows df with
  | [], _ | _, [] => true
  | _, _ => false
  end.

(** Position of the first column labelled [c]. *)
Fixpoint col_index_from (i : nat) (cols : list string) (c : string) : option nat :=
  match cols with
  | [] => None
  | c' :: cols' => if decide (c' = c) then Some i else col_index_from (S i) cols' c
  end.

Definition col_index (df : DataFrame) (c : string) : option nat :=
  col_index_from 0 (columns df) c.

(** The cell of a row in column [i]; a row shorter than the frame is read as
    padded with missing values, as pandas pads it. *)
Definition cell (i : nat) (row : list scalar) : scalar := nth i row NaN.

Definition set_cell (i : nat) (v : scalar) (row : list scalar) : list scalar :=
  <[i := v]> (row ++ replicate (S i - length row) NaN).

(** ** The environment: library calls made by the program *)

Record Env := mkEnv {
  (** [requests.get(url)], [raise_for_status()], then the [href] of every
      anchor found by BeautifulSoup, in document order. *)
  get_hrefs : string -> result (list string);
  (** [requests.get(url)], [raise_for_status()], then
      [response.content.decode("utf-8", errors="ignore")]. *)
  http_get : string -> result string;
  (** [pd.read_csv(io.StringIO(text), delim_whitespace=True, names=names,
      on_bad_lines="skip")]: the rows of the frame, whose labels are [names]. *)
  read_csv : string -> list string -> result (list (list scalar));
  (** [pd.to_datetime(v, format="%Y%m%dT%H%M%S.%fZ", errors="coerce")] on one
      cell; [None] is NaT. *)
  to_datetime_fmt : scalar -> option Z;
  (** [pd.to_datetime(s)] on a date-picker string; [None] is NaT. *)
  to_datetime : string -> result (option Z);
}.

Definition stamp_of (o : option Z) : scalar :=
  match o with Some t => Stamp t | None => NaT end.

(** ** Directory lister *)

Definition excluded_prefixes : list string :=
  ["../"; "../../"; "javascript"; "operationfiles"].

(** Line 46. *)
Definition href_qualifies (href : string) : bool :=
  Py.startswith "./" href && negb (Py.startswith_any excluded_prefixes href).

(** Line 47: [href.lstrip("./").rstrip("/")]. *)
Definition clean_href (href : string) : string :=
  Py.rstrip_chars "/" (Py.lstrip_chars "./" href).

Definition list_items_step (items : list string) (href : string) : list string :=
  if href_qualifies href then items ++ [clean_href href] else items.

Definition list_items (E : Env) (base_url : string) : list string :=
  match get_hrefs E base_url with
  | Ok hrefs => fold_left list_items_step hrefs []
  | Err _ => []
  end.

(** ** Header schema extractor *)

(** One iteration of the loop of [extract_column_names]; the state is the
    pair of locals [column_names] and [seen_names]. *)
Definition extract_step (st : list string * gmap string nat) (line : string)
  : list string * gmap string nat :=
  let '(column_names, seen_names) := st in
  if Py.startswith "Column" (Py.strip line)
     && negb (Py.startswith "From" (Py.strip line)) then
    let parts := Py.split_max ":" 1 line in
    if (1 <? length parts)%nat then
      let base_name := hd EmptyString (Py.split "," (Py.strip (nth 1 parts EmptyString))) in
      match seen_names !! base_name with
      | Some n =>
          (column_names ++ [base_name +:+ "_" +:+ Py.str (S n)],
           <[base_name := S n]> seen_names)
      | None =>
          (column_names ++ [base_name], <[base_name := 0%nat]> seen_names)
      end
    else st
  else st.

Definition extract_column_names (file_content : list string) : list string :=
  fst (fold_left extract_step file_content ([], ∅)).

(** ** Data section locator and schema reconciler *)

(** Lines 182-187: the [for ... else] scan; at the first line whose trimmed
    text starts with ["202"] the payload is that line and all later ones,
    joined by newlines; [None] is the [else] branch. *)
Fixpoint find_data_section (data : list string) : option string :=
  match data with
  | [] => None
  | line :: rest =>
      if Py.startswith "202" (Py.strip line) then Some (Py.join_nl (line :: rest))
      else find_data_section rest
  end.

(** [range(a, b)] *)
Definition range (a b : nat) : list nat := seq a (b - a).

(** Lines 191-195 on the locals [column_names] and [sample_row]. *)
Definition reconcile (column_names : list string) (sample_row : string) : list string :=
  let actual_field_count := length (Py.split_ws sample_row) in
  if (length column_names <? actual_field_count)%nat then
    column_names
      ++ map (fun i => "Unnamed_" +:+ Py.str i)
             (range (length column_names) actual_field_count)
  else column_names.

Definition possible_timestamp_columns : list string :=
  ["Timestamp"; "UT date and time for measurement center"].

(** Line 207: [next((col for col in column_names if col in
    possible_timestamp_columns), None)]. *)
Fixpoint pick_timestamp_column (column_names : list string) : option string :=
  match column_names with
  | [] => None
  | col :: rest =>
      if bool_decide (col ∈ possible_timestamp_columns) then Some col
      else pick_timestamp_column rest
  end.

(** ** DataFrame methods used by the callbacks *)

Definition key_error {A} (c : string) : result A := Err (Raise ("'" +:+ c +:+ "'")).

(** Line 212: [df[c] = pd.to_datetime(df[c], format=..., errors="coerce")]. *)
Definition assign_datetime (E : Env) (c : string) (df : DataFrame) : result DataFrame :=
  match col_index df c with
  | None => key_error c
  | Some i =>
      Ok (mkDataFrame (columns df)
            (map (fun row => set_cell i (stamp_of (to_datetime_fmt E (cell i row))) row)
                 (rows df)))
  end.

(** The rows whose key in column [i] was not seen before, in order: the
    default [keep="first"] of [drop_duplicates]; missing values count as
    equal to each other. *)
Fixpoint keep_first (i : nat) (seen : list scalar) (rs : list (list scalar))
  : list (list scalar) :=
  match rs with
  | [] => []
  | r :: rs' =>
      if decide (cell i r ∈ seen) then keep_first i seen rs'
      else r :: keep_first i (cell i r :: seen) rs'
  end.

(** Line 213: [df.drop_duplicates(subset=[c], inplace=True)]. *)
Definition drop_duplicates (c : string) (df : DataFrame) : result DataFrame :=
  match col_index df c with
  | None => key_error c
  | Some i => Ok (mkDataFrame (columns df) (keep_first i [] (rows df)))
  end.

(** Order of a datetime64 column under [sort_values]: timestamps ascending,
    null timestamps last ([na_position="last"]). *)
Definition stamp_le (a b : scalar) : Prop :=
  match a, b with
  | Stamp x, Stamp y => (x <= y)%Z
  | Stamp _, _ => True
  | _, Stamp _ => False
  | _, _ => True
  end.

Global Instance stamp_le_dec : RelDecision stamp_le.
Proof. intros [] []; simpl; apply _. Defined.

Definition row_le (i : nat) (r1 r2 : list scalar) : Prop :=
  stamp_le (cell i r1) (cell i r2).

Global Instance row_le_dec i : RelDecision (row_le i).
Proof. intros r1 r2. unfold row_le. apply _. Defined.

(** Line 214: [df.sort_values(by=c, inplace=True)], for a column of
    timestamps, the only kind the callback sorts (line 212 has just assigned
    it). The sorting algorithm is immaterial where the keys are distinct, as
    they are after line 213: see [sorted_rows_unique]. *)
Definition sort_values (c : string) (df : DataFrame) : result DataFrame :=
  match col_index df c with
  | None => key_error c
  | Some i => Ok (mkDataFrame (columns df) (merge_sort (row_le i) (rows df)))
  end.

Definition type_error {A} : result A :=
  Err (Raise "Invalid comparison between non-datetime values and Timestamp").

(** One element of [df[c] >= bound] or [df[c] <= bound]: a comparison with
    NaT on either side is False; a cell that is no timestamp raises. *)
Definition compare_cell (op : Z -> Z -> bool) (bound : option Z) (v : scalar) : result bool :=
  match v with
  | Stamp t => Ok match bound with Some b => op t b | None => false end
  | NaT => Ok false
  | Str _ | NaN => type_error
  end.

Fixpoint compare_column (op : Z -> Z -> bool) (bound : option Z) (col : list scalar)
  : result (list bool) :=
  match col with
  | [] => Ok []
  | v :: col' =>
      match compare_cell op bound v with
      | Err e => Err e
      | Ok b =>
          match compare_column op bound col' with
          | Err e => Err e
          | Ok bs => Ok (b :: bs)
          end
      end
  end.

(** [m1 & m2] on boolean series of one frame. *)
Definition mask_and (m1 m2 : list bool) : list bool := zip_with andb m1 m2.

(** [df[mask]]: boolean indexing. *)
Fixpoint select_rows (mask : list bool) (rs : list (list scalar)) : list (list scalar) :=
  match mask, rs with
  | b :: mask', r :: rs' => if b then r :: select_rows mask' rs' else select_rows mask' rs'
  | _, _ => []
  end.

(** ** Figures *)

Inductive figure :=
| Placeholder (title : string)
| LineChart (title : string) (points : list (scalar * scalar)).

(** [px.line(df, x=x, y=y, title=title)]. *)
Definition px_line (df : DataFrame) (x y title : string) : result figure :=
  match col_index df x, col_index df y with
  | Some i, Some j => Ok (LineChart title (map (fun r => (cell i r, cell j r)) (rows df)))
  | None, _ => Err (Raise ("Value of 'x' is not the name of a column in 'data_frame'"))
  | _, None => Err (Raise ("Value of 'y' is not the name of a column in 'data_frame'"))
  end.

(** ** Program state *)

(** The module globals and the DataFrame objects they may refer to. A frame
    is a heap object: binding a name copies the reference, [df.copy()] and
    boolean indexing allocate. *)
Record World := mkWorld {
  heap : list DataFrame;
  uploaded_df : option nat;
  timestamp_column : option string;
}.

(** State at import: line 159 binds [timestamp_column]; [uploaded_df] is
    bound only by the main guard, line 267. *)
Definition world_at_import : World := mkWorld [] None None.
Definition world_at_main : World := mkWorld [empty_frame] (Some 0%nat) None.

Definition M (A : Type) : Type := World -> World * result A.

Definition ret {A} (a : A) : M A := fun w => (w, Ok a).
Definition raise {A} (msg : string) : M A := fun w => (w, Err (Raise msg)).
Definition bind {A B} (m : M A) (k : A -> M B) : M B :=
  fun w => match m w with
           | (w', Ok a) => k a w'
           | (w', Err e) => (w', Err e)
           end.
Definition lift {A} (r : result A) : M A := fun w => (w, r).

Notation "'let*' x ':=' m 'in' k" := (bind m (fun x => k))
  (at level 10, x name, m at level 100, k at level 200).
Notation "'do!' m 'in' k" := (bind m (fun _ => k))
  (at level 10, m at level 100, k at level 200).

(** [try: body except Exception as e: handler(e)]: what the body wrote
    before it raised stays written. *)
Definition try_except {A} (body : M A) (handler : exn -> M A) : M A :=
  fun w => match body w with
           | (w', Ok a) => (w', Ok a)
           | (w', Err e) => handler e w'
           end.

Definition alloc (df : DataFrame) : M nat :=
  fun w => (mkWorld (heap w ++ [df]) (uploaded_df w) (timestamp_column w),
            Ok (length (heap w))).

Definition load (l : nat) : M DataFrame :=
  fun w => match heap w !! l with
           | Some df => (w, Ok df)
           | None => (w, Err (Raise "dangling reference"))
           end.

(** An in-place method of the frame at [l]. *)
Definition update_in_place (l : nat) (f : DataFrame -> result DataFrame) : M unit :=
  let* df := load l in
  fun w => match f df with
           | Ok df' => (mkWorld (<[l := df']> (heap w)) (uploaded_df w) (timestamp_column w),
                        Ok tt)
           | Err e => (w, Err e)
           end.

Definition get_uploaded_df : M nat :=
  fun w => match uploaded_df w with
           | Some l => (w, Ok l)
           | None => (w, Err (Raise "name 'uploaded_df' is not defined"))
           end.

Definition set_uploaded_df (l : nat) : M unit :=
  fun w => (mkWorld (heap w) (Some l) (timestamp_column w), Ok tt).

Definition get_timestamp_column : M (option string) :=
  fun w => (w, Ok (timestamp_column w)).

Definition set_timestamp_column (c : option string) : M unit :=
  fun w => (mkWorld (heap w) (uploaded_df w) c, Ok tt).

(** ** The callbacks *)

(** An entry of a dropdown's [options]: [{"label": col, "value": col}]. *)
Record dropdown_option := mkOption { label : string; value : string }.

Definition callback_output : Type :=
  (list dropdown_option * list dropdown_option * string)%type.

(** [xs[0]] *)
Definition first_item {A} (xs : list A) : result A :=
  match xs with
  | x :: _ => Ok x
  | [] => Err (Raise "list index out of range")
  end.

(** Lines 174-220: the body of the [try]. *)
Definition process_body (E : Env) (file_url : string) : M callback_output :=
  let* text := lift (http_get E file_url) in
  let data := Py.splitlines text in
  let column_names := extract_column_names data in
  match find_data_section data with
  | None => ret ([], [], "No valid data found in the file.")
  | Some data_section =>
      let* sample_row := lift (first_item (Py.splitlines data_section)) in
      let column_names := reconcile column_names sample_row in
      let* parsed := lift (read_csv E data_section column_names) in
      let* df := alloc (mkDataFrame column_names parsed) in
      do! set_timestamp_column (pick_timestamp_column column_names) in
      let* tc := get_timestamp_column in
      match tc with
      | Some c =>
          if Py.is_empty c then
            ret ([], [], "No valid timestamp column found in the file.")
          else
            do! update_in_place df (assign_datetime E c) in
            do! update_in_place df (drop_duplicates c) in
            do! update_in_place df (sort_values c) in
            do! set_uploaded_df df in
            let numeric_columns :=
              map (fun col => mkOption col col)
                  (filter (fun col => col <> c) column_names) in
            ret (numeric_columns, numeric_columns, "Loaded file: " +:+ file_url)
      | None => ret ([], [], "No valid timestamp column found in the file.")
      end
  end.

(** Lines 169-223. *)
Definition process_selected_file (E : Env) (file_url : option string) : M callback_output :=
  match file_url with
  | Some url =>
      if Py.is_empty url then ret ([], [], "No file selected.")
      else
        try_except (process_body E url)
          (fun e => ret ([], [], "Error loading file: " +:+ exn_msg e))
  | None => ret ([], [], "No file selected.")
  end.

Definition no_data : figure := Placeholder "No Data Available".

(** Lines 247-248: the frame the charts are drawn from. *)
Definition date_filter (E : Env) (df : nat) (c : string)
    (start_date end_date : option string) : M nat :=
  match start_date, end_date with
  | Some s, Some e =>
      if negb (Py.is_empty s) && negb (Py.is_empty e) then
        let* frame := load df in
        let* i := lift (match col_index frame c with
                        | Some i => Ok i
                        | None => key_error c
                        end) in
        let col := map (cell i) (rows frame) in
        let* lo := lift (to_datetime E s) in
        let* m1 := lift (compare_column Z.geb lo col) in
        let* hi := lift (to_datetime E e) in
        let* m2 := lift (compare_column Z.leb hi col) in
        alloc (mkDataFrame (columns frame) (select_rows (mask_and m1 m2) (rows frame)))
      else ret df
  | _, _ => ret df
  end.

(** Lines 251-254 and 257-260. *)
Definition chart (df : nat) (c : string) (column : option string) (prefix : string) : M figure :=
  match column with
  | Some y =>
      if Py.is_empty y then ret no_data
      else
        let* frame := load df in
        lift (px_line frame c y (prefix +:+ y +:+ " Over Time"))
  | None => ret no_data
  end.

(** Lines 237-262. *)
Definition update_charts (E : Env) (column1 column2 start_date end_date : option string)
  : M (figure * figure) :=
  let* u := get_uploaded_df in
  let* stored := load u in
  let* tc := get_timestamp_column in
  if df_empty stored || negb (Py.truthy tc) then ret (no_data, no_data)
  else
    let c := default EmptyString tc in
    let* df := alloc stored in
    let* df := date_filter E df c start_date end_date in
    let* fig1 := chart df c column1 "Chart 1: " in
    let* fig2 := chart df c column2 "Chart 2: " in
    ret (fig1, fig2).

(** ** A reference environment

    One concrete environment, used to run the callbacks on concrete files:
    a server that answers every request alike, a tokenizer for
    whitespace-delimited payloads and a parser for timestamps written with
    two-digit fields, as in ["20230101T000000.000000Z"]. *)

Module Ref.

Definition digit (c : ascii) : option Z :=
  let n := nat_of_ascii c in
  if ((48 <=? n) && (n <=? 57))%nat then Some (Z.of_nat (n - 48)) else None.

Fixpoint number_go (acc : Z) (s : string) : option Z :=
  match s with
  | EmptyString => Some acc
  | String c s' =>
      match digit c with
      | Some d => number_go (acc * 10 + d) s'
      | None => None
      end
  end.

Definition number (s : string) : option Z :=
  if Py.is_empty s then None else number_go 0 s.

Definition is_leap (y : Z) : bool :=
  ((y mod 4 =? 0) && negb (y mod 100 =? 0) || (y mod 400 =? 0))%Z.

Definition days_in_month (y m : Z) : Z :=
  if (m =? 2)%Z then (if is_leap y then 29 else 28)%Z
  else if ((m =? 4) || (m =? 6) || (m =? 9) || (m =? 11))%Z then 30%Z
  else 31%Z.

(** Days from 1970-01-01 to the given civil date. *)
Definition days_from_civil (y m d : Z) : Z :=
  let y' := (if m <=? 2 then y - 1 else y)%Z in
  let era := (y' / 400)%Z in
  let yoe := (y' - era * 400)%Z in
  let mp := (if m <=? 2 then m + 9 else m - 3)%Z in
  let doy := ((153 * mp + 2) / 5 + d - 1)%Z in
  let doe := (yoe * 365 + yoe / 4 - yoe / 100 + doy)%Z in
  (era * 146097 + doe - 719468)%Z.

(** Microseconds since the epoch. *)
Definition instant (y m d hh mm ss us : Z) : option Z :=
  if ((1 <=? m) && (m <=? 12) && (1 <=? d) && (d <=? days_in_month y m)
      && (hh <? 24) && (mm <? 60) && (ss <? 60))%Z
  then Some ((((days_from_civil y m d * 24 + hh) * 60 + mm) * 60 + ss) * 1000000 + us)%Z
  else None.

Definition char_at (i : nat) (s : string) (c : ascii) : bool :=
  match String.get i s with
  | Some d => Ascii.eqb c d
  | None => false
  end.

(** The format ["%Y%m%dT%H%M%S.%fZ"], with one to six fraction digits. *)
Definition parse_stamp (s : string) : option Z :=
  let n := String.length s in
  if ((18 <=? n) && (n <=? 23))%nat
     && char_at 8 s "T" && char_at 15 s "." && char_at (n - 1) s "Z" then
    let frac := substring 16 (n - 17) s in
    y ← number (substring 0 4 s);
    m ← number (substring 4 2 s);
    d ← number (substring 6 2 s);
    hh ← number (substring 9 2 s);
    mm ← number (substring 11 2 s);
    ss ← number (substring 13 2 s);
    f ← number frac;
    instant y m d hh mm ss (f * 10 ^ Z.of_nat (6 - String.length frac))%Z
  else None.

Definition to_datetime_fmt (v : scalar) : option Z :=
  match v with
  | Str s => parse_stamp s
  | Stamp t => Some t
  | NaN | NaT => None
  end.

(** ["YYYY-MM-DD"], the strings a date picker supplies. *)
Definition to_datetime (s : string) : result (option Z) :=
  if (String.length s =? 10)%nat && char_at 4 s "-" && char_at 7 s "-" then
    match
      (y ← number (substring 0 4 s);
       m ← number (substring 5 2 s);
       d ← number (substring 8 2 s);
       instant y m d 0 0 0 0)
    with
    | Some t => Ok (Some t)
    | None => Err (Raise ("Unknown datetime string format, unable to parse: " +:+ s))
    end
  else Err (Raise ("Unknown datetime string format, unable to parse: " +:+ s)).

(** Pad a record to the width of the frame with missing values. *)
Definition fit (width : nat) (toks : list string) : list scalar :=
  map Str toks ++ replicate (width - length toks) NaN.

(** Blank lines are skipped; a record with more fields than expected is a
    bad line and is skipped; repeated labels are refused. *)
Definition read_csv (text : string) (names : list string) : result (list (list scalar)) :=
  if bool_decide (NoDup names) then
    let records := filter (fun toks => toks <> []) (map Py.split_ws (Py.splitlines text)) in
    let expected := Nat.max (length names) (length (hd [] records)) in
    Ok (map (fit (length names))
            (filter (fun toks => (length toks <= expected)%nat) records))
  else Err (Raise "Duplicate names are not allowed.").

(** The environment whose server answers [listing] to every listing request
    and [body] to every file request. *)
Definition env (listing : result (list string)) (body : result string) : Env :=
  mkEnv (fun _ => listing) (fun _ => body) read_csv to_datetime_fmt to_datetime.

End Ref.

(** ** The extractor as the specification words it *)

(** A line declares a column iff its trimmed text starts with ["Column"],
    does not start with ["From"], and contains a colon. *)
Definition has_char (sep : ascii) (s : string) : bool :=
  existsb (Ascii.eqb sep) (list_ascii_of_string s).

Definition is_declaration_line (line : string) : bool :=
  Py.startswith "Column" (Py.strip line)
  && negb (Py.startswith "From" (Py.strip line))
  && has_char ":" (Py.strip line).

Fixpoint after_first (sep : ascii) (s : string) : string :=
  match s with
  | EmptyString => EmptyString
  | String c s' => if Ascii.eqb c sep then s' else after_first sep s'
  end.

Fixpoint before_first (sep : ascii) (s : string) : string :=
  match s with
  | EmptyString => EmptyString
  | String c s' => if Ascii.eqb c sep then EmptyString else String c (before_first sep s')
  end.

(** The text after the first colon, trimmed, truncated at the first comma. *)
Definition declared_name (line : string) : string :=
  before_first "," (Py.strip (after_first ":" line)).

Definition occurrences (b : string) (earlier : list string) : nat :=
  length (filter (fun x => x = b) earlier).

(** The first occurrence keeps the bare name, the N-th repeat gets [_N]. *)
Definition unique_name (earlier : list string) (b : string) : string :=
  match occurrences b earlier with
  | O => b
  | S n => b +:+ "_" +:+ Py.str (S n)
  end.

Fixpoint disambiguate (earlier bases : list string) : list string :=
  match bases with
  | [] => []
  | b :: rest => unique_name earlier b :: disambiguate (earlier ++ [b]) rest
  end.

Definition spec_column_names (lines : list string) : list string :=
  disambiguate [] (map declared_name (filter (fun l => is_declaration_line l = true) lines)).

(** The allow-list order reading of the timestamp resolver: the first
    candidate label that occurs anywhere in the schema. *)
Definition first_candidate_in_schema (schema : list string) : option string :=
  find (fun cand => bool_decide (cand ∈ schema)) possible_timestamp_columns.


(** The counters of [seen_names] after the base names [earlier] were met:
    a name met [n + 1] times is mapped to [n]. *)
Definition seen_ok (seen : gmap string nat) (earlier : list string) : Prop :=
  forall b, seen !! b = match occurrences b earlier with
                        | O => None
                        | S n => Some n
                        end.

(** The table the global [uploaded_df] refers to, if it is bound. *)
Definition stored_table (w : World) : option DataFrame :=
  match uploaded_df w with
  | Some l => heap w !! l
  | None => None
  end.

(** A computation that rebinds no global and mutates no existing frame: it
    may only allocate. *)
Definition preserves_session {A} (m : M A) : Prop :=
  forall w,
    uploaded_df (fst (m w)) = uploaded_df w
    /\ timestamp_column (fst (m w)) = timestamp_column w
    /\ exists fresh, heap (fst (m w)) = heap w ++ fresh.

(** Files used to run the callbacks. *)
Definition unlines (lines : list string) : string := Py.join_nl lines.

Definition scenario_file : string :=
  unlines ["Column 1: Timestamp, UTC";
           "Column 2: Pressure, mbar";
           "20230101T000000.000000Z 1013.2";
           "20230101T000000.000000Z 1014.0";
           "20230102T000000.000000Z 1012.5"].

Definition header_only_file : string :=
  unlines ["File name: Pandora101s1_L2.txt";
           "Column 1: Timestamp, UTC";
           "Column 2: Pressure, mbar"].

Definition no_timestamp_file : string :=
  unlines ["Column 1: Pressure, mbar";
           "20230101T000000.000000Z"].

Definition two_candidates_file : string :=
  unlines ["Column 1: UT date and time for measurement center, yyyymmddThhmmssZ";
           "Column 2: Timestamp, UTC";
           "20230102T000000.000000Z 20230101T000000.000000Z"].

Definition repeated_names_file : string :=
  unlines ["Column 1: Unnamed_1";
           "20230101T000000.000000Z 7"].

(** A session in which a table with timestamp column "Timestamp" is loaded. *)
Definition loaded_world : World :=
  mkWorld [mkDataFrame ["Timestamp"; "Pressure"]
             [[Stamp 1672531200000000; Str "1013.2"];
              [Stamp 1672617600000000; Str "1012.5"]]]
          (Some 0%nat) (Some "Timestamp").

(** A text without line boundaries: what one element of [splitlines] is. *)
Fixpoint line_text (s : string) : bool :=
  match s with
  | EmptyString => true
  | String c s' => negb (Py.islinebreak c) && line_text s'
  end.

(** The line at which the scan of lines 182-185 stops. *)
Fixpoint first_data_line (data : list string) : option string :=
  match data with
  | [] => None
  | line :: rest =>
      if Py.startswith "202" (Py.strip line) then Some line else first_data_line rest
  end.

(** The reconciled schema of a file text: the value of [column_names] after
    line 195. *)
Definition resolved_schema (text : string) : option (list string) :=
  match first_data_line (Py.splitlines text) with
  | Some line => Some (reconcile (extract_column_names (Py.splitlines text)) line)
  | None => None
  end.

(** Lines 212-214 on the rows of the frame, [i] being the position of the
    timestamp column. *)
Definition normalize_rows (E : Env) (i : nat) (parsed : list (list scalar))
  : list (list scalar) :=
  map (fun row => set_cell i (stamp_of (to_datetime_fmt E (cell i row))) row) parsed.

Definition resolved_rows (E : Env) (i : nat) (parsed : list (list scalar))
  : list (list scalar) :=
  merge_sort (row_le i) (keep_first i [] (normalize_rows E i parsed)).

(** Line 219. *)
Definition numeric_options (c : string) (column_names : list string) : list dropdown_option :=
  map (fun col => mkOption col col) (filter (fun col => col <> c) column_names).

(** A cell of a datetime64 column. *)
Definition is_datetime (v : scalar) : Prop :=
  match v with
  | Stamp _ | NaT => True
  | Str _ | NaN => False
  end.

(** Row [r] is the first row of [file_rows] that carries its key. *)
Definition first_with_key (i : nat) (file_rows : list (list scalar)) (r : list scalar) : Prop :=
  exists k, file_rows !! k = Some r
            /\ forall j r', (j < k)%nat -> file_rows !! j = Some r' -> cell i r' <> cell i r.

(** A timestamp cell within the closed range of two parsed bounds; NaT is
    within no range. *)
Definition in_range (lo hi : option Z) (v : scalar) : bool :=
  match v, lo, hi with
  | Stamp t, Some a, Some b => ((a <=? t) && (t <=? b))%Z
  | _, _, _ => false
  end.

(** The two figures drawn from one frame (lines 251-262). *)
Definition chart_of (frame : DataFrame) (c : string) (column : option string)
    (prefix : string) : result figure :=
  match column with
  | Some y =>
      if Py.is_empty y then Ok no_data
      else px_line frame c y (prefix +:+ y +:+ " Over Time")
  | None => Ok no_data
  end.

Definition charts_of (frame : DataFrame) (c : string) (column1 column2 : option string)
  : result (figure * figure) :=
  match chart_of frame c column1 "Chart 1: " with
  | Ok fig1 =>
      match chart_of frame c column2 "Chart 2: " with
      | Ok fig2 => Ok (fig1, fig2)
      | Err e => Err e
      end
  | Err e => Err e
  end.
(** ** The dropdown callbacks *)

(** Line 11. *)
Definition BASE_URL : string := "https://data.ovh.pandonia-global-network.org/".

(** Lines 115-120; [urljoin] is [urllib.parse.urljoin]. *)
Definition update_device_dropdown (urljoin : string -> string -> string) (E : Env)
    (selected_location : option string) : list dropdown_option :=
  match selected_location with
  | Some loc =>
      if Py.is_empty loc then []
      else
        let location_url := urljoin BASE_URL (loc +:+ "/") in
        let devices := list_items E location_url in
        map (fun device => mkOption device device) devices
  | None => []
  end.

(** Lines 128-133. *)
Definition update_file_dropdown (urljoin : string -> string -> string) (E : Env)
    (selected_location selected_device : option string) : list dropdown_option :=
  match selected_location, selected_device with
  | Some loc, Some dev =>
      if negb (Py.is_empty loc) && negb (Py.is_empty dev) then
        let l2_url := urljoin BASE_URL (loc +:+ "/" +:+ dev +:+ "/L2/") in
        let files := list_items E l2_url in
        map (fun file => mkOption file (urljoin l2_url file)) files
      else []
  | _, _ => []
  end.

Definition first_char (s : string) : option ascii :=
  match s with
  | EmptyString => None
  | String c _ => Some c
  end.

Fixpoint last_char (s : string) : option ascii :=
  match s with
  | EmptyString => None
  | String c EmptyString => Some c
  | String _ s' => last_char s'
  end.

(** A name that begins with neither a dot nor a slash and does not end with
    a slash. *)
Definition plain_name (n : string) : Prop :=
  match first_char n with
  | Some c => Py.in_chars "./" c = false
  | None => True
  end
  /\ last_char n <> Some "/"%char.

(** ** Base names and generated names *)

(** The base names the header declares, in encounter order. *)
Definition declared_names (lines : list string) : list string :=
  map declared_name (filter (fun l => is_declaration_line l = true) lines).

(** [x] reads as a name the extractor generates for a repeat of a base name
    of [bases]. *)
Definition generated_from (bases : list string) (x : string) : Prop :=
  exists b n, b ∈ bases /\ x = b +:+ "_" +:+ Py.str (S n).

(** ** What one run of the file callback does to the session *)

(** The decision a run reaches: write nothing and report [msg]; allocate the
    parsed frame, reset [timestamp_column] and report that no timestamp
    column was found; or publish the table resolved from [parsed] with
    timestamp column [c] at position [i]. *)
Inductive plan :=
| Untouched (msg : string)
| Unresolved (names : list string) (parsed : list (list scalar))
| Loaded (url : string) (names : list string) (parsed : list (list scalar))
         (c : string) (i : nat).

Definition file_plan (E : Env) (file_url : option string) : plan :=
  match file_url with
  | None => Untouched "No file selected."
  | Some url =>
      if Py.is_empty url then Untouched "No file selected."
      else
        match http_get E url with
        | Err e => Untouched ("Error loading file: " +:+ exn_msg e)
        | Ok text =>
            match find_data_section (Py.splitlines text),
                  first_data_line (Py.splitlines text) with
            | Some section, Some line =>
                let names := reconcile (extract_column_names (Py.splitlines text)) line in
                match read_csv E section names with
                | Err e => Untouched ("Error loading file: " +:+ exn_msg e)
                | Ok parsed =>
                    match pick_timestamp_column names with
                    | None => Unresolved names parsed
                    | Some c =>
                        Loaded url names parsed c
                               (default 0%nat (col_index_from 0 names c))
                    end
                end
            | _, _ => Untouched "No valid data found in the file."
            end
        end
  end.

Definition apply_plan (E : Env) (p : plan) (w : World) : World * result callback_output :=
  match p with
  | Untouched msg => (w, Ok ([], [], msg))
  | Unresolved names parsed =>
      (mkWorld (heap w ++ [mkDataFrame names parsed]) (uploaded_df w) None,
       Ok ([], [], "No valid timestamp column found in the file."))
  | Loaded url names parsed c i =>
      (mkWorld (heap w ++ [mkDataFrame names (resolved_rows E i parsed)])
               (Some (length (heap w))) (Some c),
       Ok (numeric_options c names, numeric_options c names, "Loaded file: " +:+ url))
  end.

(** ** The model on small inputs *)

Example split_ws_ex : Py.split_ws "  ab  c d " = ["ab"; "c"; "d"].
Proof. reflexivity. Qed.
Example splitlines_ex :
  Py.splitlines ("a" +:+ String "013" (String "010" ("b" +:+ String "010" (String "010" "c"))))
  = ["a"; "b"; EmptyString; "c"].
Proof. reflexivity. Qed.
Example split_max_ex : Py.split_max ":" 1 "Column 1: a:b" = ["Column 1"; " a:b"].
Proof. reflexivity. Qed.
Example strip_ex : Py.strip "  a b  " = "a b".
Proof. reflexivity. Qed.
Example extract_ex :
  extract_column_names
    ["Column 1: Timestamp, UTC"; "Column 2: Pressure, mbar"; "Column 1: Timestamp, UTC"]
  = ["Timestamp"; "Pressure"; "Timestamp_1"].
Proof. vm_compute. reflexivity. Qed.
Example reconcile_ex : reconcile ["a"] "1 2 3" = ["a"; "Unnamed_1"; "Unnamed_2"].
Proof. vm_compute. reflexivity. Qed.
Example parse_stamp_ex : Ref.parse_stamp "19700102T000001.5Z" = Some 86401500000%Z.
Proof. vm_compute. reflexivity. Qed.
Example parse_stamp_bad : Ref.parse_stamp "20230230T000000.000000Z" = None.
Proof. vm_compute. reflexivity. Qed.
Example to_datetime_ex : Ref.to_datetime "2023-01-01" = Ok (Some 1672531200000000%Z).
Proof. vm_compute. reflexivity. Qed.

(** ** Lemmas on the string primitives *)

Section StringLemmas.

Lemma has_char_cons sep c s :
  has_char sep (String c s) = Ascii.eqb sep c || has_char sep s.
Proof. reflexivity. Qed.

Lemma isspace_not_colon c : Py.isspace c = true -> Ascii.eqb ":" c = false.
Proof.
  destruct c as [[] [] [] [] [] [] [] []]; vm_compute; intros; congruence.
Qed.

Lemma has_char_lstrip s : has_char ":" (Py.lstrip s) = has_char ":" s.
Proof.
  induction s as [|c s IH]; [reflexivity|].
  cbn [Py.lstrip]. destruct (Py.isspace c) eqn:Hc; [|reflexivity].
  now rewrite IH, has_char_cons, (isspace_not_colon c Hc).
Qed.

Lemma has_char_rstrip s : has_char ":" (Py.rstrip s) = has_char ":" s.
Proof.
  induction s as [|c s IH]; [reflexivity|].
  cbn [Py.rstrip]. rewrite has_char_cons, <- IH.
  destruct (Py.isspace c) eqn:Hc; cbn [andb].
  - destruct (Py.rstrip s) eqn:Hr; cbn [Py.is_empty].
    + now rewrite (isspace_not_colon c Hc).
    + now rewrite has_char_cons.
  - now rewrite has_char_cons.
Qed.

Lemma has_char_strip s : has_char ":" (Py.strip s) = has_char ":" s.
Proof. unfold Py.strip. now rewrite has_char_rstrip, has_char_lstrip. Qed.

Lemma eqb_flip (a b : ascii) : Ascii.eqb a b = Ascii.eqb b a.
Proof.
  destruct (Ascii.eqb_spec a b) as [->|Hne].
  - symmetry. apply Ascii.eqb_refl.
  - symmetry. apply Ascii.eqb_neq. congruence.
Qed.

Lemma split_max_cons sep m c s :
  Py.split_max sep (S m) (String c s) =
  if Ascii.eqb c sep then EmptyString :: Py.split_max sep m s
  else Py.push c (Py.split_max sep (S m) s).
Proof. reflexivity. Qed.

(** [s.split(sep, 1)]: one field without the separator, else the text
    before its first occurrence and the text after it. *)
Lemma split_max_1 sep s :
  Py.split_max sep 1 s =
  if has_char sep s then [before_first sep s; after_first sep s] else [s].
Proof.
  induction s as [|c s IH]; [reflexivity|].
  rewrite split_max_cons, has_char_cons, (eqb_flip sep c).
  cbn [before_first after_first].
  destruct (Ascii.eqb c sep); cbn [orb]; [reflexivity|].
  rewrite IH. now destruct (has_char sep s).
Qed.

(** [s.split(sep)[0]] is the text before the first separator. *)
Lemma split_head sep s : hd EmptyString (Py.split sep s) = before_first sep s.
Proof.
  induction s as [|c s IH]; [reflexivity|].
  cbn [Py.split before_first]. destruct (Ascii.eqb c sep); [reflexivity|].
  rewrite <- IH. destruct (Py.split sep s) eqn:Hs; [|reflexivity].
  destruct s as [|d s]; [discriminate|].
  cbn [Py.split] in Hs. destruct (Ascii.eqb d sep); [discriminate|].
  now destruct (Py.split sep s).
Qed.

End StringLemmas.

(** ** Header schema extractor *)

Section Extractor.

Lemma occurrences_snoc b earlier x :
  occurrences b (earlier ++ [x]) =
  (occurrences b earlier + if decide (x = b) then 1 else 0)%nat.
Proof.
  unfold occurrences. rewrite filter_app, length_app. f_equal.
  rewrite filter_cons, filter_nil. now destruct (decide (x = b)).
Qed.

Lemma seen_ok_empty : seen_ok ∅ [].
Proof. intros b. now rewrite lookup_empty. Qed.

Lemma seen_ok_first seen earlier b :
  seen_ok seen earlier -> occurrences b earlier = 0%nat ->
  seen_ok (<[b := 0%nat]> seen) (earlier ++ [b]).
Proof.
  intros Hok H0 b'. rewrite occurrences_snoc.
  destruct (decide (b = b')) as [<-|Hne].
  - now rewrite lookup_insert_eq, H0.
  - rewrite lookup_insert_ne by done. rewrite Nat.add_0_r. apply Hok.
Qed.

Lemma seen_ok_repeat seen earlier b n :
  seen_ok seen earlier -> occurrences b earlier = S n ->
  seen_ok (<[b := S n]> seen) (earlier ++ [b]).
Proof.
  intros Hok Hn b'. rewrite occurrences_snoc.
  destruct (decide (b = b')) as [<-|Hne].
  - rewrite lookup_insert_eq, Hn. now rewrite Nat.add_1_r.
  - rewrite lookup_insert_ne by done. rewrite Nat.add_0_r. apply Hok.
Qed.

(** One pass of the loop body, against the specification's reading. *)
Lemma extract_step_spec names seen earlier line :
  seen_ok seen earlier ->
  if is_declaration_line line then
    exists seen',
      extract_step (names, seen) line
      = (names ++ [unique_name earlier (declared_name line)], seen')
      /\ seen_ok seen' (earlier ++ [declared_name line])
  else extract_step (names, seen) line = (names, seen).
Proof.
  intros Hok. unfold is_declaration_line, extract_step.
  rewrite has_char_strip.
  destruct (Py.startswith "Column" (Py.strip line)
            && negb (Py.startswith "From" (Py.strip line))) eqn:Hpre;
    cbn [andb]; [|reflexivity].
  rewrite split_max_1.
  destruct (has_char ":" line) eqn:Hcolon; cbn [length Nat.ltb Nat.leb nth];
    [|reflexivity].
  rewrite split_head. fold (declared_name line).
  rewrite (Hok (declared_name line)). unfold unique_name.
  destruct (occurrences (declared_name line) earlier) as [|n] eqn:Hocc.
  - eexists. split; [reflexivity|]. now apply seen_ok_first.
  - eexists. split; [reflexivity|]. now apply seen_ok_repeat.
Qed.

Lemma extract_fold lines : forall names seen earlier,
  seen_ok seen earlier ->
  fst (fold_left extract_step lines (names, seen))
  = names ++ disambiguate earlier
               (map declared_name
                    (filter (fun l => is_declaration_line l = true) lines)).
Proof.
  induction lines as [|line lines IH]; intros names seen earlier Hok.
  - cbn. now rewrite app_nil_r.
  - cbn [fold_left]. rewrite filter_cons.
    pose proof (extract_step_spec names seen earlier line Hok) as Hstep.
    destruct (is_declaration_line line) eqn:Hd.
    + destruct Hstep as (seen' & -> & Hok').
      rewrite decide_True by reflexivity.
      rewrite (IH _ _ _ Hok'). cbn [map disambiguate].
      now rewrite <- app_assoc.
    + rewrite Hstep. rewrite decide_False by discriminate.
      now apply IH.
Qed.

(** C8: the names returned by [extract_column_names] are, for every list of
    lines, those of the lines whose trimmed text starts with "Column", does
    not start with "From" and contains a colon; each name is the text after
    the first colon, trimmed and cut at the first comma, and the N-th repeat
    of a base name carries the suffix _N, in encounter order. The three-line
    scenario yields Timestamp, Pressure, Timestamp_1. *)
Theorem extract_column_names_refines_spec :
  (forall lines, extract_column_names lines = spec_column_names lines)
  /\ extract_column_names
       ["Column 1: Timestamp, UTC"; "Column 2: Pressure, mbar";
        "Column 1: Timestamp, UTC"]
     = ["Timestamp"; "Pressure"; "Timestamp_1"].
Proof.
  split.
  - intros lines. unfold extract_column_names, spec_column_names.
    now rewrite (extract_fold lines [] ∅ [] seen_ok_empty).
  - vm_compute. reflexivity.
Qed.

(** C1 at a failing input: a declared name that already has the shape of a
    generated one collides with it, both in the extractor and in the padding
    of the reconciler. *)
Theorem extract_column_names_repeats_a_name :
  extract_column_names ["Column 1: A"; "Column 2: A"; "Column 3: A_1"]
  = ["A"; "A_1"; "A_1"]
  /\ ~ NoDup (extract_column_names ["Column 1: A"; "Column 2: A"; "Column 3: A_1"])
  /\ reconcile (extract_column_names ["Column 1: Unnamed_1"])
               "20230101T000000.000000Z 7"
     = ["Unnamed_1"; "Unnamed_1"].
Proof.
  split; [vm_compute; reflexivity|]. split; [|vm_compute; reflexivity].
  replace (extract_column_names _) with ["A"; "A_1"; "A_1"]
    by (vm_compute; reflexivity).
  intros Hnd. apply NoDup_cons in Hnd as [_ Hnd].
  apply NoDup_cons in Hnd as [Hnotin _]. apply Hnotin. left.
Qed.

End Extractor.

(** ** Schema reconciler *)

Section Reconciler.

Lemma range_length a b : length (range a b) = (b - a)%nat.
Proof. unfold range. apply length_seq. Qed.

(** C5: when fewer names are declared than the first data line has
    whitespace-separated tokens, the reconciled schema is the declared names
    followed by Unnamed_i for i from the declared count to the token count
    minus one, so its length is the token count; otherwise the declared
    names are returned as they are. *)
Theorem reconcile_pads_or_keeps (column_names : list string) (first_line : string) :
  let token_count := length (Py.split_ws first_line) in
  ((length column_names < token_count)%nat ->
     reconcile column_names first_line
     = column_names
         ++ map (fun i => "Unnamed_" +:+ Py.str i)
                (seq (length column_names) (token_count - length column_names))
     /\ length (reconcile column_names first_line) = token_count
     /\ forall k, (length column_names <= k < token_count)%nat ->
          reconcile column_names first_line !! k = Some ("Unnamed_" +:+ Py.str k))
  /\ ((token_count <= length column_names)%nat ->
        reconcile column_names first_line = column_names).
Proof.
  intros token_count. unfold reconcile. fold token_count. split.
  - intros Hlt. apply Nat.ltb_lt in Hlt as Hb. rewrite Hb. unfold range.
    split; [reflexivity|]. split.
    + rewrite length_app, length_map, length_seq. lia.
    + intros k [Hlo Hhi]. rewrite lookup_app_r by exact Hlo.
      rewrite list_lookup_fmap.
      rewrite lookup_seq_lt by lia. cbn. do 3 f_equal. lia.
  - intros Hge. apply Nat.ltb_ge in Hge. now rewrite Hge.
Qed.

Lemma reconcile_pads_or_keeps_witness :
  reconcile ["a"] "1 2 3" = ["a"; "Unnamed_1"; "Unnamed_2"]
  /\ reconcile ["a"; "b"] "1" = ["a"; "b"].
Proof.
  split.
  - destruct (reconcile_pads_or_keeps ["a"] "1 2 3") as [Hpad _].
    destruct Hpad as [Heq _]; [vm_compute; lia|].
    rewrite Heq. vm_compute. reflexivity.
  - destruct (reconcile_pads_or_keeps ["a"; "b"] "1") as [_ Hkeep].
    apply Hkeep. vm_compute. lia.
Defined.

End Reconciler.

(** ** Directory lister *)

(** C9 at a failing input: [lstrip("./")] removes every leading dot and
    slash and [rstrip("/")] every trailing slash, so the entry ".hidden" is
    listed as "hidden" and "a//" as "a". *)
Theorem list_items_strips_leading_dots :
  clean_href "./.hidden/" = "hidden"
  /\ list_items (Ref.env (Ok ["./.hidden/"; "../"; "./a//"; "./x/"]) (Ok EmptyString))
                "https://data.ovh.pandonia-global-network.org/"
     = ["hidden"; "a"; "x"].
Proof. split; vm_compute; reflexivity. Qed.

(** ** Frame properties of the state monad *)

Create HintDb frame.

Section Frame.

Lemma preserves_ret {A} (a : A) : preserves_session (ret a).
Proof. intros w. cbn. repeat split. exists []. now rewrite app_nil_r. Qed.

Lemma preserves_lift {A} (r : result A) : preserves_session (lift r).
Proof. intros w. cbn. repeat split. exists []. now rewrite app_nil_r. Qed.

Lemma preserves_load l : preserves_session (load l).
Proof.
  intros w. unfold load. destruct (heap w !! l); cbn; repeat split;
    exists []; now rewrite app_nil_r.
Qed.

Lemma preserves_alloc df : preserves_session (alloc df).
Proof. intros w. cbn. repeat split. now exists [df]. Qed.

Lemma preserves_get_uploaded_df : preserves_session get_uploaded_df.
Proof.
  intros w. unfold get_uploaded_df.
  destruct (uploaded_df w) eqn:Hu; cbn; rewrite ?Hu;
    (split; [reflexivity|]); (split; [reflexivity|]);
    exists []; now rewrite app_nil_r.
Qed.

Lemma preserves_get_timestamp_column : preserves_session get_timestamp_column.
Proof. intros w. cbn. repeat split. exists []. now rewrite app_nil_r. Qed.

Lemma preserves_bind {A B} (m : M A) (k : A -> M B) :
  preserves_session m -> (forall a, preserves_session (k a)) ->
  preserves_session (bind m k).
Proof.
  intros Hm Hk w. unfold bind. specialize (Hm w).
  destruct (m w) as [w1 [a|e]]; cbn in Hm.
  - destruct Hm as (Hu & Ht & fresh1 & Hh).
    destruct (Hk a w1) as (Hu' & Ht' & fresh2 & Hh').
    rewrite Hu', Ht', Hh', Hu, Ht, Hh. repeat split.
    exists (fresh1 ++ fresh2). now rewrite app_assoc.
  - exact Hm.
Qed.

Lemma preserves_if {A} (b : bool) (m1 m2 : M A) :
  preserves_session m1 -> preserves_session m2 ->
  preserves_session (if b then m1 else m2).
Proof. now destruct b. Qed.

#[local] Hint Resolve preserves_ret preserves_lift preserves_load preserves_alloc
  preserves_get_uploaded_df preserves_get_timestamp_column : frame.

Lemma preserves_date_filter E df c start_date end_date :
  preserves_session (date_filter E df c start_date end_date).
Proof.
  unfold date_filter.
  destruct start_date as [s|], end_date as [e|]; auto with frame.
  apply preserves_if; auto with frame.
  repeat (apply preserves_bind; [auto with frame|intros ?]).
  auto with frame.
Qed.

Lemma preserves_chart df c column prefix :
  preserves_session (chart df c column prefix).
Proof.
  unfold chart. destruct column as [y|]; auto with frame.
  apply preserves_if; auto with frame.
  apply preserves_bind; auto with frame.
Qed.

Lemma preserves_update_charts E column1 column2 start_date end_date :
  preserves_session (update_charts E column1 column2 start_date end_date).
Proof.
  unfold update_charts.
  repeat (apply preserves_bind; [auto with frame|intros ?]).
  apply preserves_if; auto with frame.
  apply preserves_bind; [auto with frame|intros ?].
  apply preserves_bind; [apply preserves_date_filter|intros ?].
  apply preserves_bind; [apply preserves_chart|intros ?].
  apply preserves_bind; [apply preserves_chart|intros ?].
  auto with frame.
Qed.

(** Appending frames to the heap changes no table that a binding reaches. *)
Lemma stored_table_extend h fresh u t w' :
  match u with Some l => (l < length h)%nat | None => True end ->
  heap w' = h ++ fresh -> uploaded_df w' = u ->
  stored_table w' = stored_table (mkWorld h u t).
Proof.
  intros Hl Hh Hu. unfold stored_table. rewrite Hu, Hh. cbn.
  destruct u as [l|]; [|reflexivity]. now rewrite lookup_app_l.
Qed.

(** C10: a chart update rebinds neither global and leaves the stored table
    as it was, whatever the column selection and the date range: every
    frame of the heap is kept and the callback only allocates (the copy of
    line 244 and the filtered frame of line 248). *)
Theorem update_charts_preserves_session
    (E : Env) (column1 column2 start_date end_date : option string) (w : World) :
  let w' := fst (update_charts E column1 column2 start_date end_date w) in
  uploaded_df w' = uploaded_df w
  /\ timestamp_column w' = timestamp_column w
  /\ stored_table w' = stored_table w
  /\ exists fresh, heap w' = heap w ++ fresh.
Proof.
  intros w'.
  destruct (preserves_update_charts E column1 column2 start_date end_date w)
    as (Hu & Ht & fresh & Hh).
  fold w' in Hu, Ht, Hh. repeat split; [exact Hu|exact Ht| |now exists fresh].
  destruct (uploaded_df w) as [l|] eqn:Hl.
  - destruct (heap w !! l) as [df|] eqn:Hdf.
    + unfold stored_table. rewrite Hu, Hl, Hh, Hdf.
      apply lookup_app_l_Some. exact Hdf.
    + (* the binding dangles: the callback stops at its first read *)
      subst w'. unfold update_charts, bind, get_uploaded_df, load.
      now rewrite Hl, Hdf.
  - unfold stored_table. now rewrite Hu, Hl.
Qed.

End Frame.

(** ** Data section locator *)

Section Locator.

Lemma islinebreak_lf c : Py.islinebreak c = false -> Ascii.eqb c "010" = false.
Proof.
  destruct c as [[] [] [] [] [] [] [] []]; vm_compute; intros; congruence.
Qed.

Lemma append_empty_r s : s +:+ EmptyString = s.
Proof.
  induction s as [|c s IH]; [reflexivity|].
  change (String c s +:+ EmptyString) with (String c (s +:+ EmptyString)).
  now rewrite IH.
Qed.

Lemma push_lines c ls :
  Py.islinebreak c = false ->
  Forall (fun l => line_text l = true) ls ->
  Forall (fun l => line_text l = true) (Py.push c ls).
Proof.
  intros Hc Hls. destruct Hls as [|l ls Hl Hls]; cbn.
  - constructor; [|constructor]. cbn. now rewrite Hc.
  - constructor; [|exact Hls]. cbn. now rewrite Hc, Hl.
Qed.

(** Every element of [splitlines] is free of line boundaries. *)
Lemma splitlines_go_lines s : forall after_cr,
  Forall (fun l => line_text l = true) (Py.splitlines_go after_cr s).
Proof.
  induction s as [|c s IH]; intros after_cr; cbn [Py.splitlines_go].
  - constructor.
  - destruct (after_cr && Ascii.eqb c "010"); [apply IH|].
    destruct (Py.islinebreak c) eqn:Hc.
    + constructor; [reflexivity|apply IH].
    + apply push_lines; [exact Hc|apply IH].
Qed.

(** A non-empty line followed by nothing or by a newline is read back as the
    first element. *)
Lemma splitlines_go_first line : forall after_cr t,
  line_text line = true -> line <> EmptyString ->
  (t = EmptyString \/ exists u, t = String "010" u) ->
  exists tl, Py.splitlines_go after_cr (line +:+ t) = line :: tl.
Proof.
  induction line as [|c line IH]; intros after_cr t Hline Hne Ht; [done|].
  cbn in Hline. apply andb_true_iff in Hline as [Hc Hline].
  apply negb_true_iff in Hc.
  change (String c line +:+ t) with (String c (line +:+ t)).
  cbn [Py.splitlines_go]. rewrite (islinebreak_lf c Hc), andb_false_r, Hc.
  destruct line as [|d line].
  - cbn [String.append]. destruct Ht as [->|[u ->]].
    + now exists [].
    + cbn. eexists. reflexivity.
  - destruct (IH false t Hline ltac:(discriminate) Ht) as [tl ->].
    cbn. now exists tl.
Qed.

Lemma startswith_202_nonempty line :
  Py.startswith "202" (Py.strip line) = true -> line <> EmptyString.
Proof. intros H ->. discriminate. Qed.

(** The payload starts with the line at which the scan stopped, so line 190
    reads that line back. *)
Lemma find_data_section_first data section :
  Forall (fun l => line_text l = true) data ->
  find_data_section data = Some section ->
  exists line,
    first_data_line data = Some line
    /\ Py.startswith "202" (Py.strip line) = true
    /\ first_item (Py.splitlines section) = Ok line.
Proof.
  induction 1 as [|l data Hl Hdata IH]; intros Hfind; [discriminate|].
  cbn [find_data_section first_data_line] in Hfind |- *.
  destruct (Py.startswith "202" (Py.strip l)) eqn:Hp; [|now apply IH].
  exists l. split; [reflexivity|]. split; [exact Hp|].
  injection Hfind as <-.
  pose proof (startswith_202_nonempty l Hp) as Hne.
  unfold Py.splitlines.
  destruct data as [|l' data'].
  - destruct (splitlines_go_first l false EmptyString Hl Hne) as [tl Htl]; [now left|].
    rewrite append_empty_r in Htl. now rewrite Htl.
  - destruct (splitlines_go_first l false (String "010" (Py.join_nl (l' :: data')))
                Hl Hne) as [tl Htl]; [right; eauto|].
    now rewrite Htl.
Qed.

Lemma find_data_section_none data :
  (forall line, line ∈ data -> Py.startswith "202" (Py.strip line) = false) ->
  find_data_section data = None.
Proof.
  induction data as [|l data IH]; intros Hall; [reflexivity|].
  cbn [find_data_section]. rewrite (Hall l) by left. apply IH.
  intros line Hin. apply Hall. now right.
Qed.

End Locator.

(** ** The file callback *)

Section FileCallback.

Context (E : Env).

Lemma update_in_place_fresh h d u t (f : DataFrame -> result DataFrame) :
  update_in_place (length h) f (mkWorld (h ++ [d]) u t)
  = match f d with
    | Ok d' => (mkWorld (h ++ [d']) u t, Ok tt)
    | Err e => (mkWorld (h ++ [d]) u t, Err e)
    end.
Proof.
  unfold update_in_place, bind, load. cbn [heap uploaded_df timestamp_column].
  rewrite lookup_app_r by reflexivity. rewrite Nat.sub_diag. cbn [lookup list_lookup].
  destruct (f d) as [d'|e]; [|reflexivity].
  cbn [heap uploaded_df timestamp_column].
  rewrite insert_app_r_alt by reflexivity. rewrite Nat.sub_diag. reflexivity.
Qed.

Lemma possible_nonempty c :
  c ∈ possible_timestamp_columns -> Py.is_empty c = false.
Proof.
  unfold possible_timestamp_columns. intros Hc.
  apply elem_of_cons in Hc as [->|Hc]; [reflexivity|].
  apply elem_of_cons in Hc as [->|Hc]; [reflexivity|].
  now apply elem_of_nil in Hc.
Qed.

(** Line 207 picks the first column, in schema order, whose label is on the
    allow-list. *)
Lemma pick_timestamp_column_some names c :
  pick_timestamp_column names = Some c ->
  exists i, names !! i = Some c
            /\ c ∈ possible_timestamp_columns
            /\ forall j c', (j < i)%nat -> names !! j = Some c' ->
                 c' ∉ possible_timestamp_columns.
Proof.
  induction names as [|col names IH]; [discriminate|].
  cbn [pick_timestamp_column]. case_bool_decide as Hcol.
  - intros [= ->]. exists 0%nat. split; [reflexivity|]. split; [exact Hcol|].
    intros j c' Hj. lia.
  - intros Hpick. destruct (IH Hpick) as (i & Hi & Hc & Hbefore).
    exists (S i). split; [exact Hi|]. split; [exact Hc|].
    intros [|j] c' Hj Hlook.
    + now injection Hlook as <-.
    + apply (Hbefore j); [lia|exact Hlook].
Qed.

Lemma pick_timestamp_column_none names :
  pick_timestamp_column names = None ->
  forall c, c ∈ names -> c ∉ possible_timestamp_columns.
Proof.
  induction names as [|col names IH]; intros Hpick c Hin.
  - now apply elem_of_nil in Hin.
  - cbn [pick_timestamp_column] in Hpick. case_bool_decide as Hcol; [discriminate|].
    apply elem_of_cons in Hin as [->|Hin]; [exact Hcol|now apply IH].
Qed.

Lemma col_index_from_elem names c : forall k,
  c ∈ names -> exists i, col_index_from k names c = Some i.
Proof.
  induction names as [|c' names IH]; intros k Hin.
  - now apply elem_of_nil in Hin.
  - cbn [col_index_from]. destruct (decide (c' = c)) as [->|Hne]; [eauto|].
    apply elem_of_cons in Hin as [->|Hin]; [done|]. now apply IH.
Qed.

Lemma col_index_from_lookup names c : forall k i,
  col_index_from k names c = Some i ->
  (k <= i)%nat /\ names !! (i - k)%nat = Some c.
Proof.
  induction names as [|c' names IH]; intros k i; [discriminate|].
  cbn [col_index_from]. destruct (decide (c' = c)) as [->|Hne].
  - intros [= ->]. split; [lia|]. now rewrite Nat.sub_diag.
  - intros Hi. destruct (IH _ _ Hi) as [Hle Hlook]. split; [lia|].
    replace (i - k)%nat with (S (i - S k)) by lia. exact Hlook.
Qed.

(** The run of the callback on a file whose payload parses and whose schema
    carries a recognised timestamp label. *)
Lemma process_selected_file_resolved url w text section names parsed c :
  Py.is_empty url = false ->
  http_get E url = Ok text ->
  find_data_section (Py.splitlines text) = Some section ->
  resolved_schema text = Some names ->
  read_csv E section names = Ok parsed ->
  pick_timestamp_column names = Some c ->
  exists i,
    col_index_from 0 names c = Some i
    /\ process_selected_file E (Some url) w
       = (mkWorld (heap w ++ [mkDataFrame names (resolved_rows E i parsed)])
                  (Some (length (heap w))) (Some c),
          Ok (numeric_options c names, numeric_options c names,
              "Loaded file: " +:+ url)).
Proof.
  intros Hurl Hget Hfind Hschema Hcsv Hpick.
  destruct (find_data_section_first _ _ (splitlines_go_lines text false) Hfind)
    as (line & Hline & _ & Hfirst).
  unfold resolved_schema in Hschema. fold (Py.splitlines text) in Hline.
  rewrite Hline in Hschema. injection Hschema as Hnames.
  destruct (pick_timestamp_column_some _ _ Hpick) as (k & Hk & Hposs & _).
  destruct (col_index_from_elem names c 0) as [i Hi].
  { apply list_elem_of_lookup. eauto. }
  exists i. split; [exact Hi|].
  unfold process_selected_file. rewrite Hurl.
  unfold try_except, process_body.
  unfold bind at 1. unfold lift at 1. rewrite Hget, Hfind.
  unfold bind at 1. unfold lift at 1. rewrite Hfirst, Hnames.
  unfold bind at 1. unfold lift at 1. rewrite Hcsv.
  unfold bind at 1. unfold alloc at 1.
  unfold bind at 1. unfold set_timestamp_column at 1.
  unfold bind at 1. unfold get_timestamp_column at 1.
  cbn [heap uploaded_df timestamp_column]. rewrite Hpick.
  rewrite (possible_nonempty c Hposs).
  unfold bind at 1. rewrite update_in_place_fresh.
  unfold assign_datetime, col_index. cbn [columns rows]. rewrite Hi.
  unfold bind at 1. rewrite update_in_place_fresh.
  unfold drop_duplicates, col_index. cbn [columns rows]. rewrite Hi.
  unfold bind at 1. rewrite update_in_place_fresh.
  unfold sort_values, col_index. cbn [columns rows]. rewrite Hi.
  reflexivity.
Qed.

(** The run on a file whose payload parses and whose schema carries no
    recognised timestamp label: line 207 has already rebound the global. *)
Lemma process_selected_file_unresolved url w text section names parsed :
  Py.is_empty url = false ->
  http_get E url = Ok text ->
  find_data_section (Py.splitlines text) = Some section ->
  resolved_schema text = Some names ->
  read_csv E section names = Ok parsed ->
  pick_timestamp_column names = None ->
  process_selected_file E (Some url) w
  = (mkWorld (heap w ++ [mkDataFrame names parsed]) (uploaded_df w) None,
     Ok ([], [], "No valid timestamp column found in the file.")).
Proof.
  intros Hurl Hget Hfind Hschema Hcsv Hpick.
  destruct (find_data_section_first _ _ (splitlines_go_lines text false) Hfind)
    as (line & Hline & _ & Hfirst).
  unfold resolved_schema in Hschema. fold (Py.splitlines text) in Hline.
  rewrite Hline in Hschema. injection Hschema as Hnames.
  unfold process_selected_file. rewrite Hurl.
  unfold try_except, process_body.
  unfold bind at 1. unfold lift at 1. rewrite Hget, Hfind.
  unfold bind at 1. unfold lift at 1. rewrite Hfirst, Hnames.
  unfold bind at 1. unfold lift at 1. rewrite Hcsv.
  unfold bind at 1. unfold alloc at 1.
  unfold bind at 1. unfold set_timestamp_column at 1.
  unfold bind at 1. unfold get_timestamp_column at 1.
  cbn [heap uploaded_df timestamp_column]. rewrite Hpick. reflexivity.
Qed.

(** When the table cannot be built from the payload and the schema, the
    failure is reported in the status message and nothing is written: line
    207 is not reached. *)
Lemma process_selected_file_read_failed url w text section names e :
  Py.is_empty url = false ->
  http_get E url = Ok text ->
  find_data_section (Py.splitlines text) = Some section ->
  resolved_schema text = Some names ->
  read_csv E section names = Err e ->
  process_selected_file E (Some url) w
  = (w, Ok ([], [], "Error loading file: " +:+ exn_msg e)).
Proof.
  intros Hurl Hget Hfind Hschema Hcsv.
  destruct (find_data_section_first _ _ (splitlines_go_lines text false) Hfind)
    as (line & Hline & _ & Hfirst).
  unfold resolved_schema in Hschema. fold (Py.splitlines text) in Hline.
  rewrite Hline in Hschema. injection Hschema as Hnames.
  unfold process_selected_file. rewrite Hurl.
  unfold try_except, process_body.
  unfold bind at 1. unfold lift at 1. rewrite Hget, Hfind.
  unfold bind at 1. unfold lift at 1. rewrite Hfirst, Hnames.
  unfold bind at 1. unfold lift at 1. rewrite Hcsv. reflexivity.
Qed.

(** A failed fetch is reported in the status message and writes nothing. *)
Lemma process_selected_file_fetch_failed url w e :
  Py.is_empty url = false ->
  http_get E url = Err e ->
  process_selected_file E (Some url) w
  = (w, Ok ([], [], "Error loading file: " +:+ exn_msg e)).
Proof.
  intros Hurl Hget. unfold process_selected_file. rewrite Hurl.
  unfold try_except, process_body, bind, lift. now rewrite Hget.
Qed.

(** C7: for every file text none of whose lines, once trimmed, starts with
    "202", the callback returns the status "No valid data found in the
    file." as an ordinary result and leaves the whole state, both globals
    and every frame, as it was. *)
Theorem process_selected_file_no_data (url text : string) (w : World) :
  Py.is_empty url = false ->
  http_get E url = Ok text ->
  (forall line, line ∈ Py.splitlines text ->
     Py.startswith "202" (Py.strip line) = false) ->
  process_selected_file E (Some url) w
  = (w, Ok ([], [], "No valid data found in the file.")).
Proof.
  intros Hurl Hget Hnone. unfold process_selected_file. rewrite Hurl.
  unfold try_except, process_body, bind, lift.
  now rewrite Hget, (find_data_section_none _ Hnone).
Qed.

End FileCallback.

Lemma process_selected_file_no_data_witness :
  process_selected_file (Ref.env (Ok []) (Ok header_only_file))
    (Some "https://data.ovh.pandonia-global-network.org/a/b/L2/f.txt") loaded_world
  = (loaded_world, Ok ([], [], "No valid data found in the file.")).
Proof.
  apply (process_selected_file_no_data (Ref.env (Ok []) (Ok header_only_file))
           _ header_only_file loaded_world).
  - reflexivity.
  - reflexivity.
  - intros line Hin. vm_compute in Hin.
    repeat (apply elem_of_cons in Hin as [->|Hin]; [vm_compute; reflexivity|]).
    now apply elem_of_nil in Hin.
Defined.

(** C2 at a failing input: a file with data rows but no recognised timestamp
    label, selected while a table is loaded. The attempt fails with the
    status "No valid timestamp column found in the file.", the stored table
    is kept, and the global [timestamp_column] has been overwritten with
    [None] by line 207. *)
Theorem process_selected_file_loses_timestamp_column :
  let run := process_selected_file (Ref.env (Ok []) (Ok no_timestamp_file))
               (Some "https://data.ovh.pandonia-global-network.org/a/b/L2/f.txt")
               loaded_world in
  snd run = Ok ([], [], "No valid timestamp column found in the file.")
  /\ stored_table (fst run) = stored_table loaded_world
  /\ timestamp_column loaded_world = Some "Timestamp"
  /\ timestamp_column (fst run) = None.
Proof. vm_compute. repeat split; reflexivity. Qed.

(** ** Timestamp resolver *)

(** C3 as stated fails: in a schema that declares the verbose label before
    "Timestamp", line 207 designates the verbose label, the first in schema
    order, where the allow-list order would give "Timestamp". *)
Lemma timestamp_column_not_allow_list_order :
  let run := process_selected_file (Ref.env (Ok []) (Ok two_candidates_file))
               (Some "https://data.ovh.pandonia-global-network.org/a/b/L2/f.txt")
               world_at_main in
  resolved_schema two_candidates_file
  = Some ["UT date and time for measurement center"; "Timestamp"]
  /\ timestamp_column (fst run) = Some "UT date and time for measurement center"
  /\ first_candidate_in_schema
       ["UT date and time for measurement center"; "Timestamp"]
     = Some "Timestamp"
  /\ timestamp_column (fst run)
     <> first_candidate_in_schema
          ["UT date and time for measurement center"; "Timestamp"].
Proof.
  vm_compute. repeat split; try reflexivity. discriminate.
Qed.

(** C3, amended: for every resolved schema from which the table is built
    (the parser does not raise), the designated timestamp column is the first
    column of the schema, in schema order, whose label is on the allow-list,
    and the callback then loads the file; if no column of the schema carries
    such a label, the callback returns the status "No valid timestamp column
    found in the file." as an ordinary result. When the table cannot be
    built from the schema (repeated names, for one), no column is designated:
    the state is left as it was and the status is "Error loading file: ...". *)
Theorem timestamp_column_first_in_schema_order
    (E : Env) (url text section : string) (names : list string) (w : World) :
  Py.is_empty url = false ->
  http_get E url = Ok text ->
  find_data_section (Py.splitlines text) = Some section ->
  resolved_schema text = Some names ->
  let run := process_selected_file E (Some url) w in
  match read_csv E section names with
  | Ok parsed =>
      match pick_timestamp_column names with
      | Some c =>
          (exists i, names !! i = Some c
                     /\ c ∈ possible_timestamp_columns
                     /\ forall j c', (j < i)%nat -> names !! j = Some c' ->
                          c' ∉ possible_timestamp_columns)
          /\ timestamp_column (fst run) = Some c
          /\ snd run = Ok (numeric_options c names, numeric_options c names,
                           "Loaded file: " +:+ url)
      | None =>
          (forall c, c ∈ names -> c ∉ possible_timestamp_columns)
          /\ snd run = Ok ([], [], "No valid timestamp column found in the file.")
      end
  | Err e =>
      fst run = w
      /\ snd run = Ok ([], [], "Error loading file: " +:+ exn_msg e)
  end.
Proof.
  intros Hurl Hget Hfind Hschema run.
  destruct (read_csv E section names) as [parsed|e] eqn:Hcsv.
  - destruct (pick_timestamp_column names) as [c|] eqn:Hpick.
    + split; [now apply pick_timestamp_column_some|].
      destruct (process_selected_file_resolved E url w text section names parsed c)
        as (i & _ & Hrun); auto.
      subst run. rewrite Hrun. split; reflexivity.
    + split; [now apply pick_timestamp_column_none|].
      subst run.
      now rewrite (process_selected_file_unresolved E url w text section names parsed).
  - subst run.
    rewrite (process_selected_file_read_failed E url w text section names e)
      by assumption.
    split; reflexivity.
Qed.

Lemma timestamp_column_first_in_schema_order_witness :
  timestamp_column
    (fst (process_selected_file (Ref.env (Ok []) (Ok two_candidates_file))
            (Some "u") world_at_main))
  = Some "UT date and time for measurement center"
  /\ snd (process_selected_file (Ref.env (Ok []) (Ok repeated_names_file))
            (Some "u") loaded_world)
     = Ok ([], [], "Error loading file: Duplicate names are not allowed.").
Proof.
  split.
  - pose proof (timestamp_column_first_in_schema_order
                  (Ref.env (Ok []) (Ok two_candidates_file)) "u" two_candidates_file
                  "20230102T000000.000000Z 20230101T000000.000000Z"
                  ["UT date and time for measurement center"; "Timestamp"]
                  world_at_main
                  eq_refl eq_refl eq_refl eq_refl) as H.
    exact (proj1 (proj2 H)).
  - pose proof (timestamp_column_first_in_schema_order
                  (Ref.env (Ok []) (Ok repeated_names_file)) "u" repeated_names_file
                  "20230101T000000.000000Z 7"
                  ["Unnamed_1"; "Unnamed_1"]
                  loaded_world
                  eq_refl eq_refl eq_refl eq_refl) as H.
    exact (proj2 H).
Defined.

(** ** Duplicate removal and ordering *)

Section Resolver.

Global Instance stamp_le_total : Total stamp_le.
Proof. intros [] []; cbn; auto. lia. Qed.

Global Instance stamp_le_trans : Transitive stamp_le.
Proof. intros [] [] []; cbn; auto; try tauto. lia. Qed.

Global Instance row_le_total i : Total (row_le i).
Proof. intros r1 r2. apply stamp_le_total. Qed.

Global Instance row_le_trans i : Transitive (row_le i).
Proof. intros r1 r2 r3. apply stamp_le_trans. Qed.

Lemma cell_set_cell i v row : cell i (set_cell i v row) = v.
Proof.
  unfold cell, set_cell.
  assert (i < length (row ++ replicate (S i - length row) NaN))%nat as Hlt.
  { rewrite length_app, length_replicate. lia. }
  pose proof (list_lookup_insert_eq (row ++ replicate (S i - length row) NaN) i v Hlt) as H.
  now apply nth_lookup_Some with (d := NaN) in H.
Qed.

(** After line 212 the timestamp column holds timestamps and NaT only. *)
Lemma normalize_rows_datetime E i parsed :
  Forall (fun r => is_datetime (cell i r)) (normalize_rows E i parsed).
Proof.
  unfold normalize_rows. apply Forall_fmap, Forall_forall. intros row _.
  unfold compose. rewrite cell_set_cell. now destruct (to_datetime_fmt E (cell i row)).
Qed.

Lemma keep_first_keys i rs : forall seen,
  NoDup (map (cell i) (keep_first i seen rs))
  /\ forall r, r ∈ keep_first i seen rs -> cell i r ∉ seen.
Proof.
  induction rs as [|r0 rs IH]; intros seen; cbn [keep_first map].
  - split; [constructor|]. intros r Hr. now apply elem_of_nil in Hr.
  - destruct (decide (cell i r0 ∈ seen)) as [Hin|Hnotin]; [apply IH|].
    destruct (IH (cell i r0 :: seen)) as [Hnd Hfresh]. split.
    + cbn [map]. apply NoDup_cons. split; [|exact Hnd].
      intros Hdup. apply list_elem_of_fmap in Hdup as (r & Hkey & Hr).
      apply (Hfresh r Hr). rewrite <- Hkey. left.
    + intros r Hr. apply elem_of_cons in Hr as [->|Hr]; [exact Hnotin|].
      intros Hseen. apply (Hfresh r Hr). now right.
Qed.

Lemma keep_first_elem i rs : forall seen r,
  r ∈ keep_first i seen rs
  <-> exists k, rs !! k = Some r /\ (cell i r ∉ seen)
                /\ forall j r', (j < k)%nat -> rs !! j = Some r' -> cell i r' <> cell i r.
Proof.
  induction rs as [|r0 rs IH]; intros seen r; cbn [keep_first].
  - split; [intros Hr; now apply elem_of_nil in Hr|].
    intros (k & Hk & _). discriminate.
  - destruct (decide (cell i r0 ∈ seen)) as [Hin|Hnotin].
    + rewrite IH. split.
      * intros (k & Hk & Hfresh & Hbefore). exists (S k).
        split; [exact Hk|]. split; [exact Hfresh|].
        intros [|j] r' Hj Hr'.
        -- injection Hr' as <-. congruence.
        -- apply (Hbefore j); [lia|exact Hr'].
      * intros ([|k] & Hk & Hfresh & Hbefore).
        -- injection Hk as <-. contradiction.
        -- exists k. split; [exact Hk|]. split; [exact Hfresh|].
           intros j r' Hj Hr'. apply (Hbefore (S j)); [lia|exact Hr'].
    + rewrite elem_of_cons, IH. split.
      * intros [->|(k & Hk & Hfresh & Hbefore)].
        -- exists 0%nat. split; [reflexivity|]. split; [exact Hnotin|].
           intros j r' Hj. lia.
        -- exists (S k). split; [exact Hk|].
           split; [intros Hs; apply Hfresh; now right|].
           intros [|j] r' Hj Hr'.
           ++ injection Hr' as <-. intros Heq. apply Hfresh. rewrite Heq. left.
           ++ apply (Hbefore j); [lia|exact Hr'].
      * intros ([|k] & Hk & Hfresh & Hbefore).
        -- injection Hk as <-. now left.
        -- right. exists k. split; [exact Hk|]. split.
           ++ intros Hs. apply elem_of_cons in Hs as [Heq|Hs]; [|contradiction].
              apply (Hbefore 0%nat r0); [lia|reflexivity|]. now symmetry.
           ++ intros j r' Hj Hr'. apply (Hbefore (S j)); [lia|exact Hr'].
Qed.

(** Every key of the file survives in one row. *)
Lemma keep_first_covers i rs : forall seen r,
  r ∈ rs -> cell i r ∈ seen \/ exists r', r' ∈ keep_first i seen rs /\ cell i r' = cell i r.
Proof.
  induction rs as [|r0 rs IH]; intros seen r Hr.
  - now apply elem_of_nil in Hr.
  - cbn [keep_first]. apply elem_of_cons in Hr as [->|Hr].
    + destruct (decide (cell i r0 ∈ seen)); [now left|].
      right. exists r0. split; [left|reflexivity].
    + destruct (decide (cell i r0 ∈ seen)) as [Hin|Hnotin]; [now apply IH|].
      destruct (IH (cell i r0 :: seen) r Hr) as [Hs|(r' & Hr' & Hkey)].
      * apply elem_of_cons in Hs as [Heq|Hs]; [|now left].
        right. exists r0. split; [left|now symmetry].
      * right. exists r'. split; [now right|exact Hkey].
Qed.

Lemma strongly_sorted_lookup {A} (R : relation A) l :
  StronglySorted R l ->
  forall a b x y, (a < b)%nat -> l !! a = Some x -> l !! b = Some y -> R x y.
Proof.
  induction 1 as [|x0 l Hss IH Hall]; intros a b x y Hab Ha Hb; [discriminate|].
  destruct b as [|b]; [lia|]. destruct a as [|a].
  - injection Ha as <-. rewrite Forall_forall in Hall. apply Hall.
    eapply list_elem_of_lookup_2. exact Hb.
  - apply (IH a b); [lia|exact Ha|exact Hb].
Qed.

(** Distinct keys in ascending order are strictly ascending. *)
Lemma sorted_distinct_strict keys :
  NoDup keys -> StronglySorted stamp_le keys ->
  forall a b x y, (a < b)%nat ->
    keys !! a = Some (Stamp x) -> keys !! b = Some (Stamp y) -> (x < y)%Z.
Proof.
  intros Hnd Hss a b x y Hab Ha Hb.
  pose proof (strongly_sorted_lookup _ _ Hss a b _ _ Hab Ha Hb) as Hle. cbn in Hle.
  destruct (decide (x = y)) as [->|Hne]; [|lia].
  pose proof (NoDup_lookup _ _ _ _ Hnd Ha Hb). lia.
Qed.

(** Lines 213-214 on any rows: one row per key, the first of the file, in
    ascending order of the key. *)
Lemma resolved_rows_spec E i parsed :
  let file_rows := normalize_rows E i parsed in
  let table := resolved_rows E i parsed in
  NoDup (map (cell i) table)
  /\ (forall r, r ∈ table <-> first_with_key i file_rows r)
  /\ (forall r, r ∈ file_rows -> exists r', r' ∈ table /\ cell i r' = cell i r)
  /\ Forall (fun r => is_datetime (cell i r)) table
  /\ StronglySorted stamp_le (map (cell i) table).
Proof.
  intros file_rows table.
  assert (table ≡ₚ keep_first i [] file_rows) as Hperm
    by apply merge_sort_Permutation.
  split; [|split; [|split; [|split]]].
  - change (NoDup (cell i <$> table)). rewrite Hperm.
    apply (keep_first_keys i file_rows []).
  - intros r. rewrite Hperm, keep_first_elem. unfold first_with_key.
    split.
    + intros (k & Hk & _ & Hbefore). eauto.
    + intros (k & Hk & Hbefore). exists k. split; [exact Hk|].
      split; [apply not_elem_of_nil|exact Hbefore].
  - intros r Hr.
    destruct (keep_first_covers i file_rows [] r Hr) as [Hs|(r' & Hr' & Hkey)].
    + now apply elem_of_nil in Hs.
    + exists r'. split; [now rewrite Hperm|exact Hkey].
  - rewrite Hperm. rewrite Forall_forall. intros r Hr.
    apply keep_first_elem in Hr as (k & Hk & _).
    pose proof (normalize_rows_datetime E i parsed) as Hdt.
    rewrite Forall_forall in Hdt. apply Hdt.
    eapply list_elem_of_lookup_2. exact Hk.
  - change (StronglySorted stamp_le (cell i <$> table)).
    apply (StronglySorted_fmap (cell i) (row_le i) stamp_le); [auto|].
    apply StronglySorted_merge_sort; apply _.
Qed.

(** Whatever algorithm sorts rows with distinct timestamp keys, the result
    is the one of [merge_sort]. *)
Lemma sorted_rows_unique i rs sorted :
  NoDup (map (cell i) rs) ->
  Forall (fun r => is_datetime (cell i r)) rs ->
  sorted ≡ₚ rs -> StronglySorted (row_le i) sorted ->
  sorted = merge_sort (row_le i) rs.
Proof.
  intros Hnd Hdt Hperm Hss.
  apply (StronglySorted_unique_strong (row_le i)); [|exact Hss| |].
  - intros r1 r2 H1 H2 H12 H21. rewrite Hperm in H1.
    rewrite merge_sort_Permutation in H2.
    rewrite Forall_forall in Hdt.
    pose proof (Hdt r1 H1) as D1. pose proof (Hdt r2 H2) as D2.
    assert (cell i r1 = cell i r2) as Hkey.
    { unfold row_le in H12, H21.
      destruct (cell i r1), (cell i r2); cbn in *; try tauto. f_equal. lia. }
    apply list_elem_of_lookup in H1 as [a Ha], H2 as [b Hb].
    assert (a = b) as ->.
    { apply (NoDup_lookup (cell i <$> rs) a b (cell i r1)); [exact Hnd| |].
      - now rewrite list_lookup_fmap, Ha.
      - now rewrite list_lookup_fmap, Hb, Hkey. }
    congruence.
  - apply StronglySorted_merge_sort; apply _.
  - now rewrite merge_sort_Permutation.
Qed.

(** C4: in every table the file callback resolves, no two rows carry the
    same normalized timestamp, the rows kept are exactly the rows that come
    first in file order among those sharing their timestamp, and the rows
    are in ascending timestamp order, strictly so between timestamps (a null
    timestamp, of which one row at most remains, sorts last). The three-row
    scenario, whose first timestamp is repeated, resolves to two rows in
    ascending order. *)
Theorem resolved_table_unique_sorted :
  (forall (E : Env) (url text section : string) (names : list string)
          (parsed : list (list scalar)) (c : string) (w : World),
     Py.is_empty url = false ->
     http_get E url = Ok text ->
     find_data_section (Py.splitlines text) = Some section ->
     resolved_schema text = Some names ->
     read_csv E section names = Ok parsed ->
     pick_timestamp_column names = Some c ->
     let w' := fst (process_selected_file E (Some url) w) in
     exists i table,
       names !! i = Some c
       /\ stored_table w' = Some (mkDataFrame names table)
       /\ timestamp_column w' = Some c
       /\ NoDup (map (cell i) table)
       /\ (forall r, r ∈ table <-> first_with_key i (normalize_rows E i parsed) r)
       /\ StronglySorted stamp_le (map (cell i) table)
       /\ (forall a b x y, (a < b)%nat ->
              map (cell i) table !! a = Some (Stamp x) ->
              map (cell i) table !! b = Some (Stamp y) -> (x < y)%Z))
  /\ (find_data_section (Py.splitlines scenario_file)
       = Some (unlines ["20230101T000000.000000Z 1013.2";
                        "20230101T000000.000000Z 1014.0";
                        "20230102T000000.000000Z 1012.5"])
      /\ resolved_schema scenario_file = Some ["Timestamp"; "Pressure"]
      /\ stored_table
           (fst (process_selected_file (Ref.env (Ok []) (Ok scenario_file))
                   (Some "https://data.ovh.pandonia-global-network.org/a/b/L2/f.txt")
                   world_at_main))
         = Some (mkDataFrame ["Timestamp"; "Pressure"]
                   [[Stamp 1672531200000000; Str "1013.2"];
                    [Stamp 1672617600000000; Str "1012.5"]])).
Proof.
  split.
  - intros E url text section names parsed c w Hurl Hget Hfind Hschema Hcsv Hpick w'.
    destruct (process_selected_file_resolved E url w text section names parsed c)
      as (i & Hi & Hrun); auto.
    subst w'. rewrite Hrun. cbn [fst].
    exists i, (resolved_rows E i parsed).
    destruct (resolved_rows_spec E i parsed) as (Hnd & Hfirst & _ & _ & Hss).
    split.
    { apply col_index_from_lookup in Hi as [_ Hi].
      now rewrite Nat.sub_0_r in Hi. }
    split.
    { unfold stored_table. cbn [uploaded_df heap].
      rewrite lookup_app_r by reflexivity. now rewrite Nat.sub_diag. }
    split; [reflexivity|]. split; [exact Hnd|]. split; [exact Hfirst|].
    split; [exact Hss|]. now apply sorted_distinct_strict.
  - vm_compute. repeat split; reflexivity.
Qed.

Lemma resolved_table_unique_sorted_witness :
  exists i table,
    ["Timestamp"; "Pressure"] !! i = Some "Timestamp"
    /\ stored_table
         (fst (process_selected_file (Ref.env (Ok []) (Ok scenario_file))
                 (Some "u") world_at_main))
       = Some (mkDataFrame ["Timestamp"; "Pressure"] table)
    /\ NoDup (map (cell i) table)
    /\ StronglySorted stamp_le (map (cell i) table).
Proof.
  destruct (proj1 resolved_table_unique_sorted
              (Ref.env (Ok []) (Ok scenario_file)) "u" scenario_file
              (unlines ["20230101T000000.000000Z 1013.2";
                        "20230101T000000.000000Z 1014.0";
                        "20230102T000000.000000Z 1012.5"])
              ["Timestamp"; "Pressure"]
              [[Str "20230101T000000.000000Z"; Str "1013.2"];
               [Str "20230101T000000.000000Z"; Str "1014.0"];
               [Str "20230102T000000.000000Z"; Str "1012.5"]]
              "Timestamp" world_at_main
              eq_refl eq_refl eq_refl eq_refl eq_refl eq_refl)
    as (i & table & Hi & Hst & _ & Hnd & _ & Hss & _).
  exists i, table. auto.
Defined.

End Resolver.

(** ** The chart callback *)

Section ChartCallback.

Lemma compare_column_datetime op bound col :
  Forall is_datetime col ->
  compare_column op bound col
  = Ok (map (fun v => match v, bound with
                      | Stamp t, Some b => op t b
                      | _, _ => false
                      end) col).
Proof.
  induction 1 as [|v col Hv Hcol IH]; [reflexivity|].
  cbn [compare_column map]. rewrite IH.
  destruct v; cbn in Hv |- *; try contradiction; now destruct bound.
Qed.

Lemma select_in_range lo hi i rs :
  select_rows
    (mask_and
       (map (fun v => match v, lo with Stamp t, Some b => Z.geb t b | _, _ => false end)
            (map (cell i) rs))
       (map (fun v => match v, hi with Stamp t, Some b => Z.leb t b | _, _ => false end)
            (map (cell i) rs)))
    rs
  = filter (fun r => in_range lo hi (cell i r) = true) rs.
Proof.
  induction rs as [|r rs IH]; [reflexivity|].
  cbn [map mask_and zip_with select_rows]. rewrite filter_cons.
  unfold mask_and in IH. rewrite IH. unfold in_range.
  destruct (cell i r) as [s| |t|]; cbn [andb];
    try (rewrite decide_False by discriminate; reflexivity).
  destruct lo as [a|]; cbn [andb];
    [|rewrite decide_False by discriminate; reflexivity].
  destruct hi as [b|].
  - rewrite Z.geb_leb.
    destruct ((a <=? t)%Z && (t <=? b)%Z) eqn:Hin.
    + now rewrite decide_True by reflexivity.
    + now rewrite decide_False by discriminate.
  - rewrite andb_false_r. now rewrite decide_False by discriminate.
Qed.

Lemma chart_run df c column prefix w frame :
  heap w !! df = Some frame ->
  chart df c column prefix w = (w, chart_of frame c column prefix).
Proof.
  intros Hdf. unfold chart, chart_of. destruct column as [y|]; [|reflexivity].
  destruct (Py.is_empty y); [reflexivity|].
  unfold bind, load, lift. now rewrite Hdf.
Qed.

Lemma charts_run df c column1 column2 w frame :
  heap w !! df = Some frame ->
  snd ((let* fig1 := chart df c column1 "Chart 1: " in
        let* fig2 := chart df c column2 "Chart 2: " in
        ret (fig1, fig2)) w)
  = charts_of frame c column1 column2.
Proof.
  intros Hdf. unfold charts_of. unfold bind at 1.
  rewrite (chart_run df c column1 _ w frame Hdf).
  destruct (chart_of frame c column1 "Chart 1: ") as [fig1|e]; [|reflexivity].
  unfold bind at 1. rewrite (chart_run df c column2 _ w frame Hdf).
  now destruct (chart_of frame c column2 "Chart 2: ").
Qed.

(** C6, amended: on a loaded table whose timestamp column holds timestamps,
    when both bounds are supplied the charts are drawn from exactly the
    stored rows whose timestamp lies within [start, end], both ends
    included; when either bound is missing no filter is applied and the
    charts are drawn from all stored rows. *)
Theorem update_charts_date_range
    (E : Env) (w : World) (column1 column2 start_date end_date : option string)
    (l : nat) (stored : DataFrame) (c : string) (i : nat) :
  uploaded_df w = Some l ->
  heap w !! l = Some stored ->
  df_empty stored = false ->
  timestamp_column w = Some c ->
  Py.is_empty c = false ->
  col_index stored c = Some i ->
  Forall (fun r => is_datetime (cell i r)) (rows stored) ->
  let out := snd (update_charts E column1 column2 start_date end_date w) in
  (forall s e lo hi,
      start_date = Some s -> end_date = Some e ->
      Py.is_empty s = false -> Py.is_empty e = false ->
      to_datetime E s = Ok lo -> to_datetime E e = Ok hi ->
      out = charts_of
              (mkDataFrame (columns stored)
                 (filter (fun r => in_range lo hi (cell i r) = true) (rows stored)))
              c column1 column2)
  /\ (Py.truthy start_date && Py.truthy end_date = false ->
      out = charts_of stored c column1 column2).
Proof.
  intros Hu Hl Hne Htc Hc Hi Hdt out.
  set (w1 := mkWorld (heap w ++ [stored]) (Some l) (Some c)).
  assert (update_charts E column1 column2 start_date end_date w
          = (let* df := date_filter E (length (heap w)) c start_date end_date in
             let* fig1 := chart df c column1 "Chart 1: " in
             let* fig2 := chart df c column2 "Chart 2: " in
             ret (fig1, fig2)) w1) as Hstart.
  { unfold update_charts.
    unfold bind at 1. unfold get_uploaded_df. rewrite Hu.
    unfold bind at 1. unfold load at 1. rewrite Hl.
    unfold bind at 1. unfold get_timestamp_column at 1.
    rewrite Htc, Hne. cbn [Py.truthy]. rewrite Hc. cbn [negb orb].
    unfold bind at 1. unfold alloc at 1. rewrite Hu, Htc. reflexivity. }
  assert (heap w1 !! length (heap w) = Some stored) as Hcopy.
  { subst w1. cbn [heap]. rewrite lookup_app_r by reflexivity.
    now rewrite Nat.sub_diag. }
  split.
  - intros s e lo hi -> -> Hs He Hlo Hhi. subst out. rewrite Hstart.
    unfold bind at 1. unfold date_filter. rewrite Hs, He. cbn [negb andb].
    unfold bind at 1. unfold load at 1. rewrite Hcopy.
    unfold bind at 1. unfold lift at 1. rewrite Hi.
    unfold bind at 1. unfold lift at 1. rewrite Hlo.
    unfold bind at 1. unfold lift at 1.
    rewrite (compare_column_datetime Z.geb lo) by now apply Forall_fmap.
    unfold bind at 1. unfold lift at 1. rewrite Hhi.
    unfold bind at 1. unfold lift at 1.
    rewrite (compare_column_datetime Z.leb hi) by now apply Forall_fmap.
    rewrite select_in_range. unfold alloc at 1.
    apply charts_run. cbn [heap].
    rewrite lookup_app_r by reflexivity. now rewrite Nat.sub_diag.
  - intros Hmissing. subst out. rewrite Hstart.
    assert (date_filter E (length (heap w)) c start_date end_date w1
            = (w1, Ok (length (heap w)))) as Hsame.
    { unfold date_filter. destruct start_date as [s|], end_date as [e|];
        try reflexivity.
      cbn [Py.truthy] in Hmissing. now rewrite Hmissing. }
    unfold bind at 1. rewrite Hsame. now apply charts_run.
Qed.

Lemma update_charts_date_range_witness :
  snd (update_charts (Ref.env (Ok []) (Ok EmptyString)) (Some "Pressure") None
         (Some "2023-01-02") (Some "2023-01-03") loaded_world)
  = Ok (LineChart "Chart 1: Pressure Over Time"
          [(Stamp 1672617600000000, Str "1012.5")], no_data)
  /\ snd (update_charts (Ref.env (Ok []) (Ok EmptyString)) (Some "Pressure") None
            (Some "2023-01-02") None loaded_world)
     = charts_of (mkDataFrame ["Timestamp"; "Pressure"]
                    [[Stamp 1672531200000000; Str "1013.2"];
                     [Stamp 1672617600000000; Str "1012.5"]])
                 "Timestamp" (Some "Pressure") None.
Proof.
  split.
  - destruct (update_charts_date_range (Ref.env (Ok []) (Ok EmptyString)) loaded_world
                (Some "Pressure") None (Some "2023-01-02") (Some "2023-01-03")
                0%nat _ "Timestamp" 0%nat
                eq_refl eq_refl eq_refl eq_refl eq_refl eq_refl) as [Hboth _].
    { repeat constructor. }
    rewrite (Hboth "2023-01-02" "2023-01-03" (Some 1672617600000000%Z)
               (Some 1672704000000000%Z) eq_refl eq_refl eq_refl eq_refl
               eq_refl eq_refl).
    vm_compute. reflexivity.
  - destruct (update_charts_date_range (Ref.env (Ok []) (Ok EmptyString)) loaded_world
                (Some "Pressure") None (Some "2023-01-02") None
                0%nat _ "Timestamp" 0%nat
                eq_refl eq_refl eq_refl eq_refl eq_refl eq_refl) as [_ Hone].
    { repeat constructor. }
    apply Hone. reflexivity.
Defined.

(** C6 as stated fails: with a start date and no end date the callback
    applies no filter, and the chart keeps the row of 2023-01-01, which lies
    before the start date 2023-01-02. *)
Lemma update_charts_one_bound_unfiltered :
  snd (update_charts (Ref.env (Ok []) (Ok EmptyString)) (Some "Pressure") None
         (Some "2023-01-02") None loaded_world)
  = Ok (LineChart "Chart 1: Pressure Over Time"
          [(Stamp 1672531200000000, Str "1013.2");
           (Stamp 1672617600000000, Str "1012.5")], no_data)
  /\ Ref.to_datetime "2023-01-02" = Ok (Some 1672617600000000%Z)
  /\ (1672531200000000 < 1672617600000000)%Z.
Proof. vm_compute. repeat split; reflexivity. Qed.

End ChartCallback.

(** ** More on the directory lister and the dropdown callbacks *)

Section Lister.

(** The loop of lines 44-47 is a filter followed by a map. *)
Lemma list_items_loop hrefs : forall items,
  fold_left list_items_step hrefs items
  = items ++ map clean_href (filter (fun h => href_qualifies h = true) hrefs).
Proof.
  induction hrefs as [|h hrefs IH]; intros items.
  - cbn. now rewrite app_nil_r.
  - cbn [fold_left]. rewrite IH, filter_cons. unfold list_items_step.
    destruct (href_qualifies h).
    + rewrite decide_True by reflexivity. cbn [map]. now rewrite <- app_assoc.
    + now rewrite decide_False by discriminate.
Qed.

Lemma href_qualifies_startswith (href : string) :
  href_qualifies href = Py.startswith "./" href.
Proof.
  unfold href_qualifies.
  destruct (Py.startswith "./" href) eqn:Hp; [|reflexivity].
  destruct href as [|c1 [|c2 t]]; [discriminate| |];
    cbn [Py.startswith] in Hp; apply andb_true_iff in Hp as [H1 H2];
    [discriminate|].
  apply andb_true_iff in H2 as [H2 _].
  apply Ascii.eqb_eq in H1, H2. subst c1 c2. reflexivity.
Qed.

Lemma list_items_as_filter_map (E : Env) (base_url : string) :
  list_items E base_url
  = match get_hrefs E base_url with
    | Ok hrefs =>
        map clean_href (filter (fun h => Py.startswith "./" h = true) hrefs)
    | Err _ => []
    end.
Proof.
  unfold list_items. destruct (get_hrefs E base_url) as [hrefs|e]; [|reflexivity].
  rewrite list_items_loop. cbn [app]. f_equal.
  apply list_filter_iff. intros h. now rewrite href_qualifies_startswith.
Qed.

(** X1: The tuple of excluded prefixes on line 46 excludes nothing: an href that
    starts with "./" starts with none of them. In particular an entry
    "./operationfiles/" is listed. *)
Theorem href_qualifies_is_prefix_test (href : string) :
  href_qualifies href = Py.startswith "./" href
  /\ href_qualifies "./operationfiles/" = true.
Proof.
  split; [|reflexivity]. unfold href_qualifies.
  destruct (Py.startswith "./" href) eqn:Hp; [|reflexivity].
  destruct href as [|c1 [|c2 t]]; [discriminate| |];
    cbn [Py.startswith] in Hp; apply andb_true_iff in Hp as [H1 H2];
    [discriminate|].
  apply andb_true_iff in H2 as [H2 _].
  apply Ascii.eqb_eq in H1, H2. subst c1 c2. reflexivity.
Qed.

(** X2: On a listing that was fetched, [list_items] returns the cleaned href of
    every anchor whose href starts with "./", in document order and without
    removing repeats; when the fetch or the parse raises it returns the
    empty list. *)
Theorem list_items_filter_map (E : Env) (base_url : string) :
  list_items E base_url
  = match get_hrefs E base_url with
    | Ok hrefs =>
        map clean_href (filter (fun h => Py.startswith "./" h = true) hrefs)
    | Err _ => []
    end.
Proof.
  unfold list_items. destruct (get_hrefs E base_url) as [hrefs|e]; [|reflexivity].
  rewrite (list_items_loop hrefs []). cbn [app]. f_equal.
  apply list_filter_iff. intros h. now rewrite href_qualifies_startswith.
Qed.

Lemma lstrip_chars_first chars s :
  match first_char (Py.lstrip_chars chars s) with
  | Some c => Py.in_chars chars c = false
  | None => True
  end.
Proof.
  induction s as [|c s IH]; [exact I|].
  cbn [Py.lstrip_chars]. destruct (Py.in_chars chars c) eqn:Hc; [exact IH|].
  exact Hc.
Qed.

Lemma rstrip_chars_last chars s :
  match last_char (Py.rstrip_chars chars s) with
  | Some c => Py.in_chars chars c = false
  | None => True
  end.
Proof.
  induction s as [|c s IH]; [exact I|].
  cbn [Py.rstrip_chars].
  destruct (Py.rstrip_chars chars s) as [|d r] eqn:Hr.
  - cbn [Py.is_empty]. rewrite andb_true_r.
    destruct (Py.in_chars chars c) eqn:Hc; [exact I|exact Hc].
  - cbn [Py.is_empty]. rewrite andb_false_r. exact IH.
Qed.

Lemma rstrip_chars_first chars s :
  first_char (Py.rstrip_chars chars s) = None
  \/ first_char (Py.rstrip_chars chars s) = first_char s.
Proof.
  destruct s as [|c s]; [now left|].
  cbn [Py.rstrip_chars].
  destruct (Py.in_chars chars c && Py.is_empty (Py.rstrip_chars chars s));
    [now left|now right].
Qed.

Lemma lstrip_chars_id chars s :
  match first_char s with
  | Some c => Py.in_chars chars c = false
  | None => True
  end ->
  Py.lstrip_chars chars s = s.
Proof. destruct s as [|c s]; [reflexivity|]. cbn. now intros ->. Qed.

Lemma rstrip_chars_id chars s :
  match last_char s with
  | Some c => Py.in_chars chars c = false
  | None => True
  end ->
  Py.rstrip_chars chars s = s.
Proof.
  induction s as [|c s IH]; [reflexivity|].
  intros Hlast. cbn [Py.rstrip_chars].
  destruct s as [|d s].
  - cbn in Hlast |- *. now rewrite Hlast.
  - rewrite IH by exact Hlast. cbn [Py.is_empty]. now rewrite andb_false_r.
Qed.

(** X3: A listed name begins with neither a dot nor a slash and does not end
    with a slash, and cleaning it again changes nothing. *)
Theorem clean_href_shape (href : string) :
  match first_char (clean_href href) with
  | Some c => c <> "."%char /\ c <> "/"%char
  | None => True
  end
  /\ last_char (clean_href href) <> Some "/"%char
  /\ clean_href (clean_href href) = clean_href href.
Proof.
  unfold clean_href.
  pose proof (lstrip_chars_first "./" href) as Hfirst.
  pose proof (rstrip_chars_last "/" (Py.lstrip_chars "./" href)) as Hlast.
  pose proof (rstrip_chars_first "/" (Py.lstrip_chars "./" href)) as Hkeep.
  set (n := Py.rstrip_chars "/" (Py.lstrip_chars "./" href)) in *.
  assert (match first_char n with
          | Some c => Py.in_chars "./" c = false
          | None => True
          end) as Hf.
  { destruct Hkeep as [->| ->]; [exact I|exact Hfirst]. }
  clear Hfirst Hkeep. split; [|split].
  - destruct (first_char n) as [c|]; [|exact I].
    split; intros ->; discriminate.
  - destruct (last_char n) as [c|]; [|discriminate].
    intros [= ->]. discriminate.
  - rewrite lstrip_chars_id by exact Hf. now apply rstrip_chars_id.
Qed.

Lemma rstrip_chars_snoc chars s c :
  Py.in_chars chars c = true ->
  Py.rstrip_chars chars (s +:+ String c EmptyString) = Py.rstrip_chars chars s.
Proof.
  intros Hc. induction s as [|a s IH].
  - change (EmptyString +:+ String c EmptyString) with (String c EmptyString).
    cbn [Py.rstrip_chars Py.is_empty]. now rewrite Hc.
  - change (String a s +:+ String c EmptyString)
      with (String a (s +:+ String c EmptyString)).
    cbn [Py.rstrip_chars]. now rewrite IH.
Qed.

Lemma clean_href_plain name :
  plain_name name -> clean_href ("./" +:+ name +:+ "/") = name.
Proof.
  intros [Hfirst Hlast]. unfold clean_href.
  change ("./" +:+ name +:+ "/") with (String "." (String "/" (name +:+ "/"))).
  cbn [Py.lstrip_chars]. change (Py.in_chars "./" ".") with true.
  change (Py.in_chars "./" "/") with true. cbn iota.
  assert (Py.lstrip_chars "./" (name +:+ "/") = name +:+ "/"
          \/ name = EmptyString) as [->| ->].
  { destruct name as [|c name]; [now right|]. left.
    apply lstrip_chars_id. exact Hfirst. }
  - rewrite rstrip_chars_snoc by reflexivity.
    apply rstrip_chars_id. destruct (last_char name) as [c|]; [|exact I].
    destruct (Ascii.eqb_spec c "/") as [->|Hne]; [congruence|].
    unfold Py.in_chars. cbn. rewrite (proj2 (Ascii.eqb_neq c "/") Hne). reflexivity.
  - reflexivity.
Qed.

(** X4: A listing whose anchors are "./name/" for plain names (no leading dot
    or slash, no trailing slash) is returned as exactly those names. *)
Theorem list_items_plain_listing (E : Env) (base_url : string) (names : list string) :
  get_hrefs E base_url = Ok (map (fun n => "./" +:+ n +:+ "/") names) ->
  Forall plain_name names ->
  list_items E base_url = names.
Proof.
  intros Hget Hplain. rewrite list_items_as_filter_map, Hget. clear Hget.
  induction Hplain as [|n names Hn Hnames IH]; [reflexivity|].
  cbn [map]. rewrite filter_cons.
  rewrite decide_True by reflexivity. cbn [map].
  rewrite IH. f_equal. now apply clean_href_plain.
Qed.

Lemma list_items_plain_listing_witness :
  list_items (Ref.env (Ok ["./Pandora101s1/"; "./Pandora2s1/"]) (Ok EmptyString))
    BASE_URL
  = ["Pandora101s1"; "Pandora2s1"].
Proof.
  apply (list_items_plain_listing
           (Ref.env (Ok ["./Pandora101s1/"; "./Pandora2s1/"]) (Ok EmptyString))
           BASE_URL ["Pandora101s1"; "Pandora2s1"]).
  - reflexivity.
  - repeat constructor; discriminate.
Defined.

(** X5: The device dropdown offers one option per anchor of the location's
    listing whose href starts with "./", in document order, label and value
    both being the cleaned href; with no location selected, or when the
    listing cannot be fetched, it offers none. *)
Theorem update_device_dropdown_options
    (urljoin : string -> string -> string) (E : Env) (selected_location : option string) :
  update_device_dropdown urljoin E selected_location
  = match selected_location with
    | Some loc =>
        if Py.is_empty loc then []
        else
          match get_hrefs E (urljoin BASE_URL (loc +:+ "/")) with
          | Ok hrefs =>
              map (fun h => mkOption (clean_href h) (clean_href h))
                  (filter (fun h => Py.startswith "./" h = true) hrefs)
          | Err _ => []
          end
    | None => []
    end.
Proof.
  unfold update_device_dropdown. destruct selected_location as [loc|]; [|reflexivity].
  destruct (Py.is_empty loc); [reflexivity|].
  rewrite list_items_as_filter_map.
  destruct (get_hrefs E _) as [hrefs|e]; [|reflexivity].
  now rewrite map_map.
Qed.

(** X6: The file dropdown needs both a location and a device; it then offers one
    option per anchor of the L2 listing whose href starts with "./", labelled
    with the cleaned href and valued with that name joined to the L2 URL;
    when the listing cannot be fetched it offers none. *)
Theorem update_file_dropdown_options
    (urljoin : string -> string -> string) (E : Env)
    (selected_location selected_device : option string) :
  update_file_dropdown urljoin E selected_location selected_device
  = if Py.truthy selected_location && Py.truthy selected_device then
      let l2_url :=
        urljoin BASE_URL
          (default EmptyString selected_location +:+ "/"
           +:+ default EmptyString selected_device +:+ "/L2/") in
      match get_hrefs E l2_url with
      | Ok hrefs =>
          map (fun h => mkOption (clean_href h) (urljoin l2_url (clean_href h)))
              (filter (fun h => Py.startswith "./" h = true) hrefs)
      | Err _ => []
      end
    else [].
Proof.
  unfold update_file_dropdown.
  destruct selected_location as [loc|], selected_device as [dev|];
    cbn [Py.truthy andb default]; try reflexivity.
  - destruct (negb (Py.is_empty loc) && negb (Py.is_empty dev)); [|reflexivity].
    cbv zeta. rewrite list_items_as_filter_map.
    destruct (get_hrefs E _) as [hrefs|e]; [|reflexivity].
    now rewrite map_map.
  - now rewrite andb_false_r.
Qed.

End Lister.

(** ** More on the header schema extractor *)

Section ExtractorMore.

Lemma extract_as_disambiguate lines :
  extract_column_names lines = disambiguate [] (declared_names lines).
Proof.
  unfold extract_column_names, declared_names.
  now rewrite (extract_fold lines [] ∅ [] seen_ok_empty).
Qed.

Lemma declared_names_app l1 l2 :
  declared_names (l1 ++ l2) = declared_names l1 ++ declared_names l2.
Proof. unfold declared_names. now rewrite filter_app, map_app. Qed.

Lemma disambiguate_app bs1 : forall earlier bs2,
  disambiguate earlier (bs1 ++ bs2)
  = disambiguate earlier bs1 ++ disambiguate (earlier ++ bs1) bs2.
Proof.
  induction bs1 as [|b bs1 IH]; intros earlier bs2.
  - cbn. now rewrite app_nil_r.
  - cbn [app disambiguate]. rewrite IH. now rewrite <- app_assoc.
Qed.

Lemma disambiguate_length bs : forall earlier,
  length (disambiguate earlier bs) = length bs.
Proof. induction bs as [|b bs IH]; intros earlier; cbn; [|rewrite IH]; reflexivity. Qed.

(** X7: The extractor reads its input left to right: the names produced for a
    prefix of the file stay as they are when more lines follow, and there is
    one name per declaration line. *)
Theorem extract_column_names_incremental (l1 l2 : list string) :
  extract_column_names (l1 ++ l2)
  = extract_column_names l1
      ++ disambiguate (declared_names l1) (declared_names l2)
  /\ length (extract_column_names l1)
     = length (filter (fun l => is_declaration_line l = true) l1).
Proof.
  rewrite !extract_as_disambiguate, declared_names_app, disambiguate_app.
  split; [reflexivity|].
  rewrite disambiguate_length. unfold declared_names. apply length_map.
Qed.

Lemma occurrences_app b l1 l2 :
  occurrences b (l1 ++ l2) = (occurrences b l1 + occurrences b l2)%nat.
Proof. unfold occurrences. now rewrite filter_app, length_app. Qed.

Lemma occurrences_cons b x l :
  occurrences b (x :: l) = ((if decide (x = b) then 1 else 0) + occurrences b l)%nat.
Proof. unfold occurrences. rewrite filter_cons. now destruct (decide (x = b)). Qed.

Lemma disambiguate_first bs : forall earlier b,
  b ∈ bs -> occurrences b earlier = 0%nat -> b ∈ disambiguate earlier bs.
Proof.
  induction bs as [|b0 bs IH]; intros earlier b Hin Hocc.
  - now apply elem_of_nil in Hin.
  - cbn [disambiguate]. destruct (decide (b0 = b)) as [->|Hne].
    + unfold unique_name. rewrite Hocc. left.
    + right. apply elem_of_cons in Hin as [->|Hin]; [done|].
      apply IH; [exact Hin|].
      rewrite occurrences_app, Hocc, occurrences_cons.
      now rewrite decide_False by exact Hne.
Qed.

(** X8: Every declared base name is among the returned names as it is: its first
    declaration keeps the bare name. *)
Theorem extract_column_names_keeps_base (lines : list string) (line : string) :
  line ∈ lines -> is_declaration_line line = true ->
  declared_name line ∈ extract_column_names lines.
Proof.
  intros Hin Hdecl. rewrite extract_as_disambiguate.
  apply disambiguate_first; [|reflexivity].
  unfold declared_names. apply list_elem_of_fmap_2.
  apply list_elem_of_filter. split; [exact Hdecl|exact Hin].
Qed.

Lemma extract_column_names_keeps_base_witness :
  "Pressure" ∈ extract_column_names
                 ["Column 1: Timestamp, UTC"; "Column 2: Pressure, mbar";
                  "Column 2: Pressure, mbar"].
Proof.
  apply (extract_column_names_keeps_base
           ["Column 1: Timestamp, UTC"; "Column 2: Pressure, mbar";
            "Column 2: Pressure, mbar"]
           "Column 2: Pressure, mbar").
  - right. left.
  - reflexivity.
Defined.

Lemma to_uint_nonnil n : Nat.to_uint n <> Decimal.Nil.
Proof.
  rewrite <- (DecimalNat.Unsigned.of_to n) at 1.
  rewrite DecimalNat.Unsigned.to_of. apply DecimalFacts.unorm_nonnil.
Qed.

Lemma str_inj n m : Py.str n = Py.str m -> n = m.
Proof.
  unfold Py.str. intros H. apply (f_equal NilZero.uint_of_string) in H.
  rewrite !NilZero.usu in H by apply to_uint_nonnil.
  injection H as H. now apply DecimalNat.Unsigned.to_uint_inj.
Qed.

Lemma string_of_uint_digits d : has_char "_" (NilEmpty.string_of_uint d) = false.
Proof. induction d; cbn [NilEmpty.string_of_uint]; rewrite ?has_char_cons, ?IHd; reflexivity. Qed.

Lemma str_no_underscore n : has_char "_" (Py.str n) = false.
Proof.
  unfold Py.str, NilZero.string_of_uint.
  destruct (Nat.to_uint n); try apply string_of_uint_digits. reflexivity.
Qed.

Lemma has_char_app sep s t :
  has_char sep (s +:+ t) = has_char sep s || has_char sep t.
Proof.
  induction s as [|c s IH]; [reflexivity|].
  change (String c s +:+ t) with (String c (s +:+ t)).
  now rewrite !has_char_cons, IH, orb_assoc.
Qed.

(** A name with a numeric suffix splits at its last underscore. *)
Lemma suffix_split b : forall b' s s',
  has_char "_" s = false -> has_char "_" s' = false ->
  b +:+ "_" +:+ s = b' +:+ "_" +:+ s' -> b = b' /\ s = s'.
Proof.
  induction b as [|c b IH]; intros b' s s' Hs Hs' Heq.
  - destruct b' as [|c' b'].
    + cbn in Heq. injection Heq as Heq. now split.
    + change (String "_" s = String c' (b' +:+ "_" +:+ s')) in Heq.
      injection Heq as _ Heq. rewrite Heq, has_char_app in Hs.
      apply orb_false_elim in Hs as [_ Hs]. discriminate Hs.
  - destruct b' as [|c' b'].
    + change (String c (b +:+ "_" +:+ s) = String "_" s') in Heq.
      injection Heq as _ Heq. rewrite <- Heq, has_char_app in Hs'.
      apply orb_false_elim in Hs' as [_ Hs']. discriminate Hs'.
    + change (String c (b +:+ "_" +:+ s) = String c' (b' +:+ "_" +:+ s')) in Heq.
      injection Heq as -> Heq. destruct (IH _ _ _ Hs Hs' Heq) as [-> ->]. now split.
Qed.

Lemma unique_name_eq U e1 e2 b1 b2 :
  (forall x, x ∈ U -> ~ generated_from U x) ->
  b1 ∈ U -> b2 ∈ U ->
  unique_name e1 b1 = unique_name e2 b2 ->
  b1 = b2 /\ occurrences b1 e1 = occurrences b2 e2.
Proof.
  intros Hgen H1 H2. unfold unique_name.
  destruct (occurrences b1 e1) as [|n] eqn:Ho1,
           (occurrences b2 e2) as [|m] eqn:Ho2; intros Heq.
  - now split.
  - exfalso. apply (Hgen b1 H1). exists b2, m. now split.
  - exfalso. apply (Hgen b2 H2). exists b1, n. now split.
  - destruct (suffix_split _ _ _ _ (str_no_underscore _) (str_no_underscore _) Heq)
      as [-> Hstr].
    apply str_inj in Hstr. now split.
Qed.

Lemma disambiguate_elem bs : forall earlier x,
  x ∈ disambiguate earlier bs ->
  exists pre b post, bs = pre ++ b :: post /\ x = unique_name (earlier ++ pre) b.
Proof.
  induction bs as [|b0 bs IH]; intros earlier x Hx.
  - now apply elem_of_nil in Hx.
  - cbn [disambiguate] in Hx. apply elem_of_cons in Hx as [->|Hx].
    + exists [], b0, bs. now rewrite app_nil_r.
    + destruct (IH _ _ Hx) as (pre & b & post & -> & ->).
      exists (b0 :: pre), b, post. split; [reflexivity|].
      now rewrite <- app_assoc.
Qed.

Lemma disambiguate_nodup U bs : forall earlier,
  (forall x, x ∈ U -> ~ generated_from U x) ->
  (forall b, b ∈ bs -> b ∈ U) ->
  NoDup (disambiguate earlier bs).
Proof.
  induction bs as [|b0 bs IH]; intros earlier Hgen Hsub; cbn [disambiguate].
  - constructor.
  - apply NoDup_cons. split.
    + intros Hdup.
      destruct (disambiguate_elem _ _ _ Hdup) as (pre & b & post & Hbs & Heq).
      assert (b ∈ U) as Hb.
      { apply Hsub. right. rewrite Hbs. apply elem_of_app. right. left. }
      destruct (unique_name_eq U _ _ _ _ Hgen (Hsub b0 ltac:(left)) Hb Heq)
        as [<- Hocc].
      rewrite !occurrences_app, occurrences_cons in Hocc.
      rewrite decide_True in Hocc by reflexivity. cbn in Hocc. lia.
    + apply IH; [exact Hgen|]. intros b Hb. apply Hsub. now right.
Qed.

(** X9: When no declared base name reads as a generated name of a declared base
    name (no "A_1" beside a repeated "A"), the returned names are pairwise
    distinct. *)
Theorem extract_column_names_unique (lines : list string) :
  (forall x, x ∈ declared_names lines -> ~ generated_from (declared_names lines) x) ->
  NoDup (extract_column_names lines).
Proof.
  intros Hgen. rewrite extract_as_disambiguate.
  now apply (disambiguate_nodup (declared_names lines)).
Qed.

Lemma extract_column_names_unique_witness :
  NoDup (extract_column_names
           ["Column 1: Timestamp, UTC"; "Column 2: Pressure, mbar";
            "Column 1: Timestamp, UTC"]).
Proof.
  apply (extract_column_names_unique
           ["Column 1: Timestamp, UTC"; "Column 2: Pressure, mbar";
            "Column 1: Timestamp, UTC"]).
  intros x Hx (b & n & _ & Heq).
  assert (has_char "_" x = false) as Hnone.
  { vm_compute in Hx.
    repeat (apply elem_of_cons in Hx as [->|Hx]; [reflexivity|]).
    now apply elem_of_nil in Hx. }
  rewrite Heq, has_char_app in Hnone.
  apply orb_false_elim in Hnone as [_ Hnone]. discriminate Hnone.
Defined.

End ExtractorMore.

(** ** More on the locator and the reconciler *)

Section LocatorMore.

(** X10: The payload starts at the first line whose trimmed text starts with
    "202" and holds that line and every later one, whatever they are; there
    is no payload exactly when no line qualifies. *)
Theorem find_data_section_first_match (data : list string) :
  match find_data_section data with
  | Some section =>
      exists pre line rest,
        data = pre ++ line :: rest
        /\ Forall (fun l => Py.startswith "202" (Py.strip l) = false) pre
        /\ Py.startswith "202" (Py.strip line) = true
        /\ section = Py.join_nl (line :: rest)
  | None => Forall (fun l => Py.startswith "202" (Py.strip l) = false) data
  end.
Proof.
  induction data as [|l data IH]; [constructor|].
  cbn [find_data_section].
  destruct (Py.startswith "202" (Py.strip l)) eqn:Hl.
  - exists [], l, data. repeat split; [constructor|exact Hl].
  - destruct (find_data_section data) as [section|].
    + destruct IH as (pre & line & rest & -> & Hpre & Hline & ->).
      exists (l :: pre), line, rest. repeat split; [|exact Hline].
      now constructor.
    + now constructor.
Qed.

(** X11: Line 190 cannot fail: for every file text with a data section, the
    first line of the re-split payload exists and is the line at which the
    scan stopped, so the field count of line 191 is that of the first data
    line. *)
Theorem sample_row_is_first_data_line (text section : string) :
  find_data_section (Py.splitlines text) = Some section ->
  exists line,
    first_data_line (Py.splitlines text) = Some line
    /\ Py.startswith "202" (Py.strip line) = true
    /\ first_item (Py.splitlines section) = Ok line.
Proof.
  intros Hfind.
  exact (find_data_section_first _ _ (splitlines_go_lines text false) Hfind).
Qed.

Lemma sample_row_is_first_data_line_witness :
  exists line,
    first_data_line (Py.splitlines scenario_file) = Some line
    /\ Py.startswith "202" (Py.strip line) = true
    /\ first_item (Py.splitlines
                     (unlines ["20230101T000000.000000Z 1013.2";
                               "20230101T000000.000000Z 1014.0";
                               "20230102T000000.000000Z 1012.5"]))
       = Ok line.
Proof.
  apply (sample_row_is_first_data_line scenario_file). reflexivity.
Defined.

(** X12: The reconciler never drops or renames a declared name, the reconciled
    schema is as long as the larger of the declared count and the token
    count, and reconciling again against the same line changes nothing. *)
Theorem reconcile_extends (column_names : list string) (sample_row : string) :
  take (length column_names) (reconcile column_names sample_row) = column_names
  /\ length (reconcile column_names sample_row)
     = Nat.max (length column_names) (length (Py.split_ws sample_row))
  /\ reconcile (reconcile column_names sample_row) sample_row
     = reconcile column_names sample_row.
Proof.
  assert (Hlen : length (reconcile column_names sample_row)
                 = Nat.max (length column_names) (length (Py.split_ws sample_row))).
  { unfold reconcile.
    destruct (Nat.ltb_spec (length column_names) (length (Py.split_ws sample_row))).
    - rewrite length_app, length_map, range_length. lia.
    - lia. }
  split; [|split; [exact Hlen|]].
  - unfold reconcile. destruct (_ <? _)%nat.
    + now rewrite take_app_length.
    + now rewrite firstn_all.
  - unfold reconcile at 1. rewrite Hlen.
    destruct (Nat.ltb_spec (Nat.max (length column_names)
                                    (length (Py.split_ws sample_row)))
                           (length (Py.split_ws sample_row))); [lia|reflexivity].
Qed.

Lemma unnamed_inj i j :
  "Unnamed_" +:+ Py.str i = "Unnamed_" +:+ Py.str j -> i = j.
Proof.
  intros H. apply str_inj.
  exact (String.app_inj "Unnamed_" _ _ H).
Qed.

(** X13: Padding keeps a schema free of repeats when no declared name is one of
    the synthetic names that are appended. *)
Theorem reconcile_unique (column_names : list string) (sample_row : string) :
  NoDup column_names ->
  (forall k, (length column_names <= k < length (Py.split_ws sample_row))%nat ->
     "Unnamed_" +:+ Py.str k ∉ column_names) ->
  NoDup (reconcile column_names sample_row).
Proof.
  intros Hnd Hfree. unfold reconcile.
  destruct (_ <? _)%nat; [|exact Hnd].
  apply NoDup_app. split; [exact Hnd|]. split.
  - intros x Hx Hpad. apply list_elem_of_fmap in Hpad as (k & -> & Hk).
    apply (Hfree k); [|exact Hx].
    unfold range in Hk. apply elem_of_seq in Hk. lia.
  - change (NoDup ((fun i => "Unnamed_" +:+ Py.str i) <$> range (length column_names)
                      (length (Py.split_ws sample_row)))).
    apply NoDup_fmap_2_strong; [|apply NoDup_seq].
    intros i j _ _. apply unnamed_inj.
Qed.

Lemma reconcile_unique_witness :
  NoDup (reconcile ["Timestamp"] "20230101T000000.000000Z 1013.2 7").
Proof.
  apply (reconcile_unique ["Timestamp"] "20230101T000000.000000Z 1013.2 7").
  - repeat constructor; [apply not_elem_of_nil].
  - intros k _ Hin. apply elem_of_cons in Hin as [Heq|Hin].
    + discriminate Heq.
    + now apply elem_of_nil in Hin.
Defined.

End LocatorMore.

(** ** Every run of the file callback *)

Section FileCallbackMore.

Context (E : Env).

(** A run is the decision [file_plan], which reads the environment only,
    applied to the state. *)
Lemma process_selected_file_plan file_url w :
  process_selected_file E file_url w = apply_plan E (file_plan E file_url) w.
Proof.
  unfold process_selected_file, file_plan.
  destruct file_url as [url|]; [|reflexivity].
  destruct (Py.is_empty url) eqn:Hurl; [reflexivity|].
  unfold try_except, process_body.
  unfold bind at 1. unfold lift at 1.
  destruct (http_get E url) as [text|e]; [|reflexivity].
  destruct (find_data_section (Py.splitlines text)) as [section|] eqn:Hfind;
    [|reflexivity].
  destruct (find_data_section_first _ _ (splitlines_go_lines text false) Hfind)
    as (line & Hline & _ & Hfirst).
  fold (Py.splitlines text) in Hline. rewrite Hline.
  unfold bind at 1. unfold lift at 1. rewrite Hfirst.
  set (names := reconcile (extract_column_names (Py.splitlines text)) line).
  unfold bind at 1. unfold lift at 1.
  destruct (read_csv E section names) as [parsed|e]; [|reflexivity].
  unfold bind at 1. unfold alloc at 1.
  unfold bind at 1. unfold set_timestamp_column at 1.
  unfold bind at 1. unfold get_timestamp_column at 1.
  cbn [heap uploaded_df timestamp_column].
  destruct (pick_timestamp_column names) as [c|] eqn:Hpick; [|reflexivity].
  destruct (pick_timestamp_column_some _ _ Hpick) as (k & Hk & Hposs & _).
  destruct (col_index_from_elem names c 0) as [i Hi].
  { apply list_elem_of_lookup. eauto. }
  rewrite (possible_nonempty c Hposs), Hi. cbn [default apply_plan].
  unfold bind at 1. rewrite update_in_place_fresh.
  unfold assign_datetime, col_index. cbn [columns rows]. rewrite Hi.
  unfold bind at 1. rewrite update_in_place_fresh.
  unfold drop_duplicates, col_index. cbn [columns rows]. rewrite Hi.
  unfold bind at 1. rewrite update_in_place_fresh.
  unfold sort_values, col_index. cbn [columns rows]. rewrite Hi.
  reflexivity.
Qed.

Lemma file_plan_loaded file_url url names parsed c i :
  file_plan E file_url = Loaded url names parsed c i -> file_url = Some url.
Proof.
  unfold file_plan. destruct file_url as [u|]; [|discriminate].
  destruct (Py.is_empty u); [discriminate|].
  destruct (http_get E u); [|discriminate].
  destruct (find_data_section _); [|discriminate].
  destruct (first_data_line _); [|discriminate].
  destruct (read_csv E _ _); [|discriminate].
  destruct (pick_timestamp_column _); [|discriminate].
  now intros [= -> _ _ _ _].
Qed.

(** X14: The file callback never raises: whatever the environment does, it
    returns two equal option lists and a status, and the lists are empty
    unless the status is "Loaded file: " followed by the selected URL. *)
Theorem process_selected_file_never_raises (file_url : option string) (w : World) :
  exists opts msg,
    snd (process_selected_file E file_url w) = Ok (opts, opts, msg)
    /\ (opts = []
        \/ exists url, file_url = Some url /\ msg = "Loaded file: " +:+ url).
Proof.
  rewrite process_selected_file_plan.
  destruct (file_plan E file_url) as [msg|names parsed|url names parsed c i] eqn:Hplan;
    cbn [apply_plan snd].
  - exists [], msg. split; [reflexivity|now left].
  - eexists [], _. split; [reflexivity|now left].
  - eexists _, _. split; [reflexivity|]. right. exists url.
    split; [|reflexivity]. eapply file_plan_loaded, Hplan.
Qed.

(** X15: No run of the file callback mutates a frame that exists: the heap only
    grows. The binding [uploaded_df] is left as it was unless the run ends
    with "Loaded file: ...", in which case it refers to a frame allocated by
    this run; [timestamp_column] is left as it was unless the run ends with
    that status or with the unresolved-timestamp status. *)
Theorem process_selected_file_writes (file_url : option string) (w : World) :
  let w' := fst (process_selected_file E file_url w) in
  let out := snd (process_selected_file E file_url w) in
  (exists fresh, heap w' = heap w ++ fresh)
  /\ (uploaded_df w' = uploaded_df w
      \/ (uploaded_df w' = Some (length (heap w))
          /\ exists opts url, out = Ok (opts, opts, "Loaded file: " +:+ url)))
  /\ (timestamp_column w' = timestamp_column w
      \/ out = Ok ([], [], "No valid timestamp column found in the file.")
      \/ exists opts url, out = Ok (opts, opts, "Loaded file: " +:+ url)).
Proof.
  intros w' out. subst w' out. rewrite process_selected_file_plan.
  destruct (file_plan E file_url) as [msg|names parsed|url names parsed c i];
    cbn [apply_plan fst snd heap uploaded_df timestamp_column].
  - split; [exists []; now rewrite app_nil_r|]. split; now left.
  - split; [eauto|]. split; [now left|]. right. now left.
  - split; [eauto|]. split; right; [split; [reflexivity|]|right]; eauto.
Qed.

(** X16: The outcome of selecting a file does not depend on what the session held
    before: from any two states the run returns the same options and status
    and publishes the same table under the same timestamp column, or
    publishes none in both. *)
Theorem process_selected_file_history_free (file_url : option string) (w1 w2 : World) :
  let run1 := process_selected_file E file_url w1 in
  let run2 := process_selected_file E file_url w2 in
  snd run1 = snd run2
  /\ ((uploaded_df (fst run1) = uploaded_df w1 /\ uploaded_df (fst run2) = uploaded_df w2)
      \/ (stored_table (fst run1) = stored_table (fst run2)
          /\ is_Some (stored_table (fst run1))
          /\ timestamp_column (fst run1) = timestamp_column (fst run2))).
Proof.
  intros run1 run2. subst run1 run2. rewrite !process_selected_file_plan.
  destruct (file_plan E file_url) as [msg|names parsed|url names parsed c i];
    cbn [apply_plan fst snd heap uploaded_df timestamp_column].
  - split; [reflexivity|now left].
  - split; [reflexivity|now left].
  - split; [reflexivity|]. right. unfold stored_table.
    cbn [heap uploaded_df timestamp_column].
    rewrite !lookup_app_r by reflexivity. rewrite !Nat.sub_diag.
    cbn. split; [reflexivity|]. split; [eauto|reflexivity].
Qed.

End FileCallbackMore.

(** ** More on the resolved table *)

Section ResolvedTable.

Lemma cell_set_cell_ne i j v row : j <> i -> cell j (set_cell i v row) = cell j row.
Proof.
  intros Hne. unfold cell, set_cell.
  rewrite !nth_lookup, list_lookup_insert_ne by congruence.
  destruct (decide (j < length row)%nat) as [Hlt|Hge].
  - now rewrite lookup_app_l by exact Hlt.
  - rewrite lookup_app_r by lia.
    rewrite (lookup_ge_None_2 row j) by lia. cbn.
    destruct (replicate _ NaN !! _) as [x|] eqn:Hx; [|reflexivity].
    apply lookup_replicate in Hx as [-> _]. reflexivity.
Qed.

Lemma keep_first_length i rs : forall seen,
  (length (keep_first i seen rs) <= length rs)%nat.
Proof.
  induction rs as [|r rs IH]; intros seen; cbn [keep_first length]; [lia|].
  destruct (decide (cell i r ∈ seen)).
  - specialize (IH seen). lia.
  - cbn [length]. specialize (IH (cell i r :: seen)). lia.
Qed.

Lemma resolved_rows_nonempty E i parsed :
  parsed <> [] -> resolved_rows E i parsed <> [].
Proof.
  intros Hne Hnil. destruct parsed as [|p parsed]; [done|].
  assert (resolved_rows E i (p :: parsed)
          ≡ₚ keep_first i [] (normalize_rows E i (p :: parsed))) as Hperm
    by apply merge_sort_Permutation.
  rewrite Hnil in Hperm. cbn in Hperm.
  rewrite decide_False in Hperm by apply not_elem_of_nil.
  now apply Permutation_nil_cons in Hperm.
Qed.

(** X17: In every table the file callback publishes, the timestamp column holds
    parsed timestamps and NaT only, every timestamp value of the parsed file
    rows is carried by a row of the table, and the table has no more rows
    than the file. *)
Theorem resolved_table_timestamps
    (E : Env) (url text section : string) (names : list string)
    (parsed : list (list scalar)) (c : string) (w : World) :
  Py.is_empty url = false ->
  http_get E url = Ok text ->
  find_data_section (Py.splitlines text) = Some section ->
  resolved_schema text = Some names ->
  read_csv E section names = Ok parsed ->
  pick_timestamp_column names = Some c ->
  exists i table,
    stored_table (fst (process_selected_file E (Some url) w))
    = Some (mkDataFrame names table)
    /\ names !! i = Some c
    /\ Forall (fun r => is_datetime (cell i r)) table
    /\ (forall p, p ∈ parsed ->
          exists r, r ∈ table /\ cell i r = stamp_of (to_datetime_fmt E (cell i p)))
    /\ (length table <= length parsed)%nat.
Proof.
  intros Hurl Hget Hfind Hschema Hcsv Hpick.
  destruct (process_selected_file_resolved E url w text section names parsed c)
    as (i & Hi & Hrun); auto.
  rewrite Hrun. cbn [fst]. exists i, (resolved_rows E i parsed).
  destruct (resolved_rows_spec E i parsed) as (_ & _ & Hcover & Hdt & _).
  split.
  { unfold stored_table. cbn [uploaded_df heap].
    rewrite lookup_app_r by reflexivity. now rewrite Nat.sub_diag. }
  split.
  { apply col_index_from_lookup in Hi as [_ Hi]. now rewrite Nat.sub_0_r in Hi. }
  split; [exact Hdt|]. split.
  - intros p Hp.
    destruct (Hcover (set_cell i (stamp_of (to_datetime_fmt E (cell i p))) p))
      as (r & Hr & Hkey).
    { unfold normalize_rows.
      apply (list_elem_of_fmap_2
               (fun row => set_cell i (stamp_of (to_datetime_fmt E (cell i row))) row)).
      exact Hp. }
    exists r. split; [exact Hr|]. now rewrite Hkey, cell_set_cell.
  - unfold resolved_rows. rewrite merge_sort_Permutation.
    etransitivity; [apply keep_first_length|].
    unfold normalize_rows. now rewrite length_map.
Qed.

Lemma resolved_table_timestamps_witness :
  exists i table,
    stored_table (fst (process_selected_file (Ref.env (Ok []) (Ok scenario_file))
                         (Some "u") world_at_main))
    = Some (mkDataFrame ["Timestamp"; "Pressure"] table)
    /\ Forall (fun r => is_datetime (cell i r)) table
    /\ (length table <= 3)%nat.
Proof.
  destruct (resolved_table_timestamps
              (Ref.env (Ok []) (Ok scenario_file)) "u" scenario_file
              (unlines ["20230101T000000.000000Z 1013.2";
                        "20230101T000000.000000Z 1014.0";
                        "20230102T000000.000000Z 1012.5"])
              ["Timestamp"; "Pressure"]
              [[Str "20230101T000000.000000Z"; Str "1013.2"];
               [Str "20230101T000000.000000Z"; Str "1014.0"];
               [Str "20230102T000000.000000Z"; Str "1012.5"]]
              "Timestamp" world_at_main
              eq_refl eq_refl eq_refl eq_refl eq_refl eq_refl)
    as (i & table & Hst & _ & Hdt & _ & Hlen).
  exists i, table. auto.
Defined.

(** X18: Resolution rewrites the timestamp column only: every row of a published
    table is a row of the parsed file whose timestamp cell was replaced by
    its parsed value, all other cells being as they were read. *)
Theorem resolved_table_other_columns
    (E : Env) (url text section : string) (names : list string)
    (parsed : list (list scalar)) (c : string) (w : World) :
  Py.is_empty url = false ->
  http_get E url = Ok text ->
  find_data_section (Py.splitlines text) = Some section ->
  resolved_schema text = Some names ->
  read_csv E section names = Ok parsed ->
  pick_timestamp_column names = Some c ->
  exists i table,
    stored_table (fst (process_selected_file E (Some url) w))
    = Some (mkDataFrame names table)
    /\ names !! i = Some c
    /\ forall r, r ∈ table ->
         exists p, p ∈ parsed
                   /\ cell i r = stamp_of (to_datetime_fmt E (cell i p))
                   /\ forall j, j <> i -> cell j r = cell j p.
Proof.
  intros Hurl Hget Hfind Hschema Hcsv Hpick.
  destruct (process_selected_file_resolved E url w text section names parsed c)
    as (i & Hi & Hrun); auto.
  rewrite Hrun. cbn [fst]. exists i, (resolved_rows E i parsed).
  destruct (resolved_rows_spec E i parsed) as (_ & Hfirst & _).
  split.
  { unfold stored_table. cbn [uploaded_df heap].
    rewrite lookup_app_r by reflexivity. now rewrite Nat.sub_diag. }
  split.
  { apply col_index_from_lookup in Hi as [_ Hi]. now rewrite Nat.sub_0_r in Hi. }
  intros r Hr. apply Hfirst in Hr as (k & Hk & _).
  unfold normalize_rows in Hk.
  apply list_lookup_fmap_Some in Hk as (p & -> & Hp).
  exists p. split; [eapply list_elem_of_lookup_2; exact Hp|].
  split; [apply cell_set_cell|]. intros j Hj. now apply cell_set_cell_ne.
Qed.

Lemma resolved_table_other_columns_witness :
  exists i table,
    stored_table (fst (process_selected_file (Ref.env (Ok []) (Ok scenario_file))
                         (Some "u") world_at_main))
    = Some (mkDataFrame ["Timestamp"; "Pressure"] table)
    /\ ["Timestamp"; "Pressure"] !! i = Some "Timestamp".
Proof.
  destruct (resolved_table_other_columns
              (Ref.env (Ok []) (Ok scenario_file)) "u" scenario_file
              (unlines ["20230101T000000.000000Z 1013.2";
                        "20230101T000000.000000Z 1014.0";
                        "20230102T000000.000000Z 1012.5"])
              ["Timestamp"; "Pressure"]
              [[Str "20230101T000000.000000Z"; Str "1013.2"];
               [Str "20230101T000000.000000Z"; Str "1014.0"];
               [Str "20230102T000000.000000Z"; Str "1012.5"]]
              "Timestamp" world_at_main
              eq_refl eq_refl eq_refl eq_refl eq_refl eq_refl)
    as (i & table & Hst & Hi & _).
  exists i, table. auto.
Defined.

End ResolvedTable.

(** ** The chart callback at its edges, and after the file callback *)

Section ChartCallbackMore.

(** The start of every chart update on a usable session: the stored frame is
    copied and the date filter runs on the copy. *)
Lemma update_charts_unfiltered E w column1 column2 start_date end_date l stored c :
  uploaded_df w = Some l ->
  heap w !! l = Some stored ->
  df_empty stored = false ->
  timestamp_column w = Some c ->
  Py.is_empty c = false ->
  Py.truthy start_date && Py.truthy end_date = false ->
  snd (update_charts E column1 column2 start_date end_date w)
  = charts_of stored c column1 column2.
Proof.
  intros Hu Hl Hne Htc Hc Hmissing.
  set (w1 := mkWorld (heap w ++ [stored]) (Some l) (Some c)).
  assert (update_charts E column1 column2 start_date end_date w
          = (let* df := date_filter E (length (heap w)) c start_date end_date in
             let* fig1 := chart df c column1 "Chart 1: " in
             let* fig2 := chart df c column2 "Chart 2: " in
             ret (fig1, fig2)) w1) as ->.
  { unfold update_charts.
    unfold bind at 1. unfold get_uploaded_df. rewrite Hu.
    unfold bind at 1. unfold load at 1. rewrite Hl.
    unfold bind at 1. unfold get_timestamp_column at 1.
    rewrite Htc, Hne. cbn [Py.truthy]. rewrite Hc. cbn [negb orb].
    unfold bind at 1. unfold alloc at 1. rewrite Hu, Htc. reflexivity. }
  assert (date_filter E (length (heap w)) c start_date end_date w1
          = (w1, Ok (length (heap w)))) as Hsame.
  { unfold date_filter. destruct start_date as [s|], end_date as [e|];
      try reflexivity.
    cbn [Py.truthy] in Hmissing. now rewrite Hmissing. }
  unfold bind at 1. rewrite Hsame. apply charts_run.
  subst w1. cbn [heap]. rewrite lookup_app_r by reflexivity.
  now rewrite Nat.sub_diag.
Qed.

(** X19: A chart update on a session without a usable table: when [uploaded_df]
    was never bound (the module was imported, not run as the main program)
    it raises a NameError; when the stored table is empty or
    [timestamp_column] is unset it returns two "No Data Available"
    placeholders. In both cases nothing is allocated or written. *)
Theorem update_charts_without_table
    (E : Env) (column1 column2 start_date end_date : option string) (w : World) :
  (uploaded_df w = None ->
     update_charts E column1 column2 start_date end_date w
     = (w, Err (Raise "name 'uploaded_df' is not defined")))
  /\ (forall stored,
        stored_table w = Some stored ->
        df_empty stored = true \/ Py.truthy (timestamp_column w) = false ->
        update_charts E column1 column2 start_date end_date w
        = (w, Ok (no_data, no_data))).
Proof.
  split.
  - intros Hu. unfold update_charts, bind, get_uploaded_df. now rewrite Hu.
  - intros stored Hst Hcase. unfold stored_table in Hst.
    destruct (uploaded_df w) as [l|] eqn:Hu; [|discriminate].
    unfold update_charts.
    unfold bind at 1. unfold get_uploaded_df. rewrite Hu.
    unfold bind at 1. unfold load at 1. rewrite Hst.
    unfold bind at 1. unfold get_timestamp_column at 1.
    destruct Hcase as [-> | ->]; [reflexivity|].
    cbn [negb]. now rewrite orb_true_r.
Qed.

Lemma update_charts_without_table_witness :
  update_charts (Ref.env (Ok []) (Ok EmptyString)) (Some "Pressure") None None None
    world_at_import
  = (world_at_import, Err (Raise "name 'uploaded_df' is not defined"))
  /\ update_charts (Ref.env (Ok []) (Ok EmptyString)) (Some "Pressure") None None None
       world_at_main
     = (world_at_main, Ok (no_data, no_data)).
Proof.
  split.
  - apply (proj1 (update_charts_without_table (Ref.env (Ok []) (Ok EmptyString))
                    (Some "Pressure") None None None world_at_import)).
    reflexivity.
  - apply (proj2 (update_charts_without_table (Ref.env (Ok []) (Ok EmptyString))
                    (Some "Pressure") None None None world_at_main) empty_frame).
    + reflexivity.
    + left. reflexivity.
Defined.

(** X20: A failed attempt on a file without a recognised timestamp column blanks
    the charts of the table loaded before: the previous table is still
    stored, yet every chart update that follows returns the two "No Data
    Available" placeholders, whatever columns and dates are selected. *)
Theorem unresolved_attempt_blanks_charts
    (E E' : Env) (url text section : string) (names : list string)
    (parsed : list (list scalar)) (w : World) (stored : DataFrame)
    (column1 column2 start_date end_date : option string) :
  Py.is_empty url = false ->
  http_get E url = Ok text ->
  find_data_section (Py.splitlines text) = Some section ->
  resolved_schema text = Some names ->
  read_csv E section names = Ok parsed ->
  pick_timestamp_column names = None ->
  stored_table w = Some stored ->
  let w' := fst (process_selected_file E (Some url) w) in
  stored_table w' = Some stored
  /\ snd (update_charts E' column1 column2 start_date end_date w')
     = Ok (no_data, no_data).
Proof.
  intros Hurl Hget Hfind Hschema Hcsv Hpick Hst w'. subst w'.
  rewrite (process_selected_file_unresolved E url w text section names parsed)
    by assumption.
  cbn [fst]. unfold stored_table in Hst.
  destruct (uploaded_df w) as [l|] eqn:Hu; [|discriminate].
  assert (stored_table
            (mkWorld (heap w ++ [mkDataFrame names parsed]) (Some l) None)
          = Some stored) as Hst'.
  { unfold stored_table. cbn [uploaded_df heap]. now apply lookup_app_l_Some. }
  split; [exact Hst'|].
  unfold stored_table in Hst'. cbn [uploaded_df heap] in Hst'.
  unfold update_charts.
  unfold bind at 1. unfold get_uploaded_df. cbn [uploaded_df].
  unfold bind at 1. unfold load at 1. cbn [heap]. rewrite Hst'.
  unfold bind at 1. unfold get_timestamp_column at 1.
  cbn [timestamp_column Py.truthy negb]. now rewrite orb_true_r.
Qed.

Lemma unresolved_attempt_blanks_charts_witness :
  snd (update_charts (Ref.env (Ok []) (Ok EmptyString)) (Some "Pressure") None None None
         (fst (process_selected_file (Ref.env (Ok []) (Ok no_timestamp_file))
                 (Some "u") loaded_world)))
  = Ok (no_data, no_data).
Proof.
  refine (proj2 (unresolved_attempt_blanks_charts
                   (Ref.env (Ok []) (Ok no_timestamp_file))
                   (Ref.env (Ok []) (Ok EmptyString))
                   "u" no_timestamp_file "20230101T000000.000000Z" ["Pressure"]
                   [[Str "20230101T000000.000000Z"]] loaded_world _
                   (Some "Pressure") None None None
                   eq_refl eq_refl eq_refl eq_refl eq_refl eq_refl eq_refl)).
Defined.

(** X21: Load, then chart: after a file with at least one parsed row is loaded, a
    chart update without a date range, for a column [y] of the schema, draws
    one point per row of the resolved table, in table order: the row's
    timestamp against its value in column [y]. *)
Theorem load_then_chart
    (E E' : Env) (url text section : string) (names : list string)
    (parsed : list (list scalar)) (c y : string) (j : nat) (w : World) :
  Py.is_empty url = false ->
  http_get E url = Ok text ->
  find_data_section (Py.splitlines text) = Some section ->
  resolved_schema text = Some names ->
  read_csv E section names = Ok parsed ->
  pick_timestamp_column names = Some c ->
  parsed <> [] ->
  Py.is_empty y = false ->
  col_index_from 0 names y = Some j ->
  exists i table,
    stored_table (fst (process_selected_file E (Some url) w))
    = Some (mkDataFrame names table)
    /\ col_index_from 0 names c = Some i
    /\ snd (update_charts E' (Some y) None None None
              (fst (process_selected_file E (Some url) w)))
       = Ok (LineChart ("Chart 1: " +:+ y +:+ " Over Time")
               (map (fun r => (cell i r, cell j r)) table),
             no_data).
Proof.
  intros Hurl Hget Hfind Hschema Hcsv Hpick Hrows Hy Hj.
  destruct (process_selected_file_resolved E url w text section names parsed c)
    as (i & Hi & Hrun); auto.
  destruct (pick_timestamp_column_some _ _ Hpick) as (k & _ & Hposs & _).
  rewrite Hrun. cbn [fst]. exists i, (resolved_rows E i parsed).
  set (frame := mkDataFrame names (resolved_rows E i parsed)).
  assert ((heap w ++ [frame]) !! length (heap w) = Some frame) as Hlook.
  { rewrite lookup_app_r by reflexivity. now rewrite Nat.sub_diag. }
  split; [exact Hlook|]. split; [exact Hi|].
  rewrite (update_charts_unfiltered E' _ (Some y) None None None
             (length (heap w)) frame c); try reflexivity; try exact Hlook.
  - unfold charts_of, chart_of. rewrite Hy. unfold px_line, col_index.
    cbn [columns rows frame]. now rewrite Hi, Hj.
  - unfold df_empty. cbn [columns rows frame].
    destruct names as [|n names]; [discriminate|].
    pose proof (resolved_rows_nonempty E i parsed Hrows).
    now destruct (resolved_rows E i parsed).
  - now apply possible_nonempty.
Qed.

Lemma load_then_chart_witness :
  snd (update_charts (Ref.env (Ok []) (Ok EmptyString)) (Some "Pressure") None None None
         (fst (process_selected_file (Ref.env (Ok []) (Ok scenario_file))
                 (Some "u") world_at_main)))
  = Ok (LineChart "Chart 1: Pressure Over Time"
          [(Stamp 1672531200000000, Str "1013.2");
           (Stamp 1672617600000000, Str "1012.5")],
        no_data).
Proof.
  destruct (load_then_chart
              (Ref.env (Ok []) (Ok scenario_file)) (Ref.env (Ok []) (Ok EmptyString))
              "u" scenario_file
              (unlines ["20230101T000000.000000Z 1013.2";
                        "20230101T000000.000000Z 1014.0";
                        "20230102T000000.000000Z 1012.5"])
              ["Timestamp"; "Pressure"]
              [[Str "20230101T000000.000000Z"; Str "1013.2"];
               [Str "20230101T000000.000000Z"; Str "1014.0"];
               [Str "20230102T000000.000000Z"; Str "1012.5"]]
              "Timestamp" "Pressure" 1%nat world_at_main
              eq_refl eq_refl eq_refl eq_refl eq_refl eq_refl
              ltac:(discriminate) eq_refl eq_refl)
    as (i & table & Hst & Hi & Hchart).
  rewrite Hchart. vm_compute in Hst, Hi.
  injection Hst as <-. injection Hi as <-. reflexivity.
Defined.

(** On a usable session every chart update copies the stored frame and runs
    the date filter and the two charts on the copy. *)
Lemma update_charts_start E w column1 column2 start_date end_date l stored c :
  uploaded_df w = Some l ->
  heap w !! l = Some stored ->
  df_empty stored = false ->
  timestamp_column w = Some c ->
  Py.is_empty c = false ->
  update_charts E column1 column2 start_date end_date w
  = (let* df := date_filter E (length (heap w)) c start_date end_date in
     let* fig1 := chart df c column1 "Chart 1: " in
     let* fig2 := chart df c column2 "Chart 2: " in
     ret (fig1, fig2))
      (mkWorld (heap w ++ [stored]) (Some l) (Some c)).
Proof.
  intros Hu Hl Hne Htc Hc. unfold update_charts.
  unfold bind at 1. unfold get_uploaded_df. rewrite Hu.
  unfold bind at 1. unfold load at 1. rewrite Hl.
  unfold bind at 1. unfold get_timestamp_column at 1.
  rewrite Htc, Hne. cbn [Py.truthy]. rewrite Hc. cbn [negb orb].
  unfold bind at 1. unfold alloc at 1. rewrite Hu, Htc. reflexivity.
Qed.

(** The date filter either raises or hands on a frame with the columns of
    the frame it was given. *)
Lemma date_filter_columns E df c start_date end_date w frame :
  heap w !! df = Some frame ->
  match date_filter E df c start_date end_date w with
  | (w', Ok df') =>
      exists frame', heap w' !! df' = Some frame' /\ columns frame' = columns frame
  | (_, Err _) => True
  end.
Proof.
  intros Hdf. unfold date_filter.
  destruct start_date as [s|], end_date as [e|];
    try (cbn [ret]; exists frame; now split).
  destruct (negb (Py.is_empty s) && negb (Py.is_empty e));
    [|cbn [ret]; exists frame; now split].
  unfold bind at 1. unfold load at 1. rewrite Hdf.
  unfold bind at 1. unfold lift at 1.
  destruct (col_index frame c) as [i|]; [|exact I].
  unfold bind at 1. unfold lift at 1.
  destruct (to_datetime E s) as [lo|]; [|exact I].
  unfold bind at 1. unfold lift at 1.
  destruct (compare_column Z.geb lo _) as [m1|]; [|exact I].
  unfold bind at 1. unfold lift at 1.
  destruct (to_datetime E e) as [hi|]; [|exact I].
  unfold bind at 1. unfold lift at 1.
  destruct (compare_column Z.leb hi _) as [m2|]; [|exact I].
  unfold alloc. cbn [heap].
  exists (mkDataFrame (columns frame) (select_rows (mask_and m1 m2) (rows frame))).
  split; [|reflexivity].
  rewrite lookup_app_r by reflexivity. now rewrite Nat.sub_diag.
Qed.

(** X22: The chart callback has no handler: on a loaded table, selecting a
    first column that the table does not have makes the update raise instead
    of returning figures, whatever the second column and the date range. *)
Theorem update_charts_unknown_column
    (E : Env) (w : World) (l : nat) (stored : DataFrame) (c y : string)
    (column2 start_date end_date : option string) :
  uploaded_df w = Some l ->
  heap w !! l = Some stored ->
  df_empty stored = false ->
  timestamp_column w = Some c ->
  Py.is_empty c = false ->
  Py.is_empty y = false ->
  col_index stored y = None ->
  exists e, snd (update_charts E (Some y) column2 start_date end_date w) = Err e.
Proof.
  intros Hu Hl Hne Htc Hc Hy Hcol.
  rewrite (update_charts_start E w (Some y) column2 start_date end_date l stored c)
    by assumption.
  set (w1 := mkWorld (heap w ++ [stored]) (Some l) (Some c)).
  assert (heap w1 !! length (heap w) = Some stored) as Hcopy.
  { subst w1. cbn [heap]. rewrite lookup_app_r by reflexivity.
    now rewrite Nat.sub_diag. }
  pose proof (date_filter_columns E (length (heap w)) c start_date end_date
                w1 stored Hcopy) as Hfilter.
  unfold bind at 1.
  destruct (date_filter E (length (heap w)) c start_date end_date w1)
    as [w2 [df|e]]; [|eauto].
  destruct Hfilter as (frame & Hframe & Hcols).
  unfold bind at 1. rewrite (chart_run df c (Some y) _ w2 frame Hframe).
  unfold chart_of. rewrite Hy. unfold px_line, col_index. rewrite Hcols.
  unfold col_index in Hcol. rewrite Hcol.
  destruct (col_index_from 0 (columns stored) c); eauto.
Qed.

Lemma update_charts_unknown_column_witness :
  (exists e,
     snd (update_charts (Ref.env (Ok []) (Ok EmptyString)) (Some "Ozone") None None None
            loaded_world)
     = Err e)
  /\ (exists e,
        snd (update_charts (Ref.env (Ok []) (Ok EmptyString)) (Some "Ozone")
               (Some "Pressure") (Some "2023-01-01") (Some "2023-01-03") loaded_world)
        = Err e).
Proof.
  split.
  - apply (update_charts_unknown_column (Ref.env (Ok []) (Ok EmptyString)) loaded_world
             0%nat
             (mkDataFrame ["Timestamp"; "Pressure"]
                [[Stamp 1672531200000000; Str "1013.2"];
                 [Stamp 1672617600000000; Str "1012.5"]])
             "Timestamp" "Ozone" None None None);
      reflexivity.
  - apply (update_charts_unknown_column (Ref.env (Ok []) (Ok EmptyString)) loaded_world
             0%nat
             (mkDataFrame ["Timestamp"; "Pressure"]
                [[Stamp 1672531200000000; Str "1013.2"];
                 [Stamp 1672617600000000; Str "1012.5"]])
             "Timestamp" "Ozone" (Some "Pressure")
             (Some "2023-01-01") (Some "2023-01-03"));
      reflexivity.
Defined.

End ChartCallbackMore.
